(** * The OpenAI-compatible generator of garak (generators/openai.py)

    A shallow embedding of [OpenAICompatible] and [OpenAIGenerator]:
    model-name routing, request assembly, the client lifecycle around
    pickling, and the retry wrapper around [_call_model]; and of the
    prompt reader of code/probe.py. *)

From Stdlib Require Import ZArith Ascii String List Bool Lia.
From Stdlib Require Import Floats.PrimFloat.
From stdpp Require Import base option list strings gmap fin_maps sets sorting.

Local Open Scope Z_scope.

(** * Python strings: [str.split], [str.join], slicing *)

(** Strings are kept as their UTF-8 bytes.  The separator, the newline
    and the digits the code looks for are ASCII, and no byte of a longer
    UTF-8 sequence is an ASCII byte, so splitting and matching on bytes
    agree with splitting and matching on code points. *)

Module PyStr.

Definition hyphen : ascii := "-"%char.
Definition newline : ascii := "010"%char.

(** [s.split(sep)] for a one-character separator: never the empty list,
    an empty field between two adjacent separators. *)
Fixpoint split (sep : ascii) (s : string) : list string :=
  match s with
  | EmptyString => [EmptyString]
  | String c s' =>
      if decide (c = sep) then EmptyString :: split sep s'
      else match split sep s' with
           | [] => [String c EmptyString]
           | w :: ws => String c w :: ws
           end
  end.

(** [sep.join(l)] *)
Definition join (sep : string) (l : list string) : string :=
  String.concat sep l.

(** [l[:-1]]: all but the last element, the empty list stays empty. *)
Definition but_last {A} (l : list A) : list A := removelast l.

(** [x in t] for a tuple of strings. *)
Definition in_tuple (x : string) (t : list string) : bool :=
  bool_decide (x ∈ t).

(** [s] has no occurrence of [c]. *)
Fixpoint free_of (c : ascii) (s : string) : Prop :=
  match s with
  | EmptyString => True
  | String a s' => a ≠ c ∧ free_of c s'
  end.

End PyStr.

(** * Regular expressions, as far as [re.match] is used here *)

Module Re.

Inductive regex : Type :=
| Void
| Eps
| Class (p : ascii → bool)
| Cat (r1 r2 : regex)
| Alt (r1 r2 : regex)
| Star (r : regex).

(** [.] without DOTALL: any character but a newline. *)
Definition dot : regex := Class (λ c, negb (bool_decide (c = PyStr.newline))).
Definition lit (a : ascii) : regex := Class (λ c, bool_decide (c = a)).
(** [[lo-hi]] *)
Definition range (lo hi : ascii) : regex :=
  Class (λ c, (N.leb (N_of_ascii lo) (N_of_ascii c)
               && N.leb (N_of_ascii c) (N_of_ascii hi))%bool).
(** [[ab]] *)
Definition one_of (a b : ascii) : regex :=
  Class (λ c, (bool_decide (c = a) || bool_decide (c = b))%bool).
Definition plus (r : regex) : regex := Cat r (Star r).

Fixpoint nullable (r : regex) : bool :=
  match r with
  | Void => false
  | Eps => true
  | Class _ => false
  | Cat r1 r2 => nullable r1 && nullable r2
  | Alt r1 r2 => nullable r1 || nullable r2
  | Star _ => true
  end.

Fixpoint deriv (a : ascii) (r : regex) : regex :=
  match r with
  | Void => Void
  | Eps => Void
  | Class p => if p a then Eps else Void
  | Cat r1 r2 =>
      if nullable r1 then Alt (Cat (deriv a r1) r2) (deriv a r2)
      else Cat (deriv a r1) r2
  | Alt r1 r2 => Alt (deriv a r1) (deriv a r2)
  | Star r1 => Cat (deriv a r1) (Star r1)
  end.

(** The whole of [s] is a word of [r]. *)
Fixpoint accepts (r : regex) (s : string) : bool :=
  match s with
  | EmptyString => nullable r
  | String a s' => accepts (deriv a r) s'
  end.

(** [s] without its last character when that is a newline. *)
Fixpoint chomp (s : string) : option string :=
  match s with
  | EmptyString => None
  | String a EmptyString =>
      if decide (a = PyStr.newline) then Some EmptyString else None
  | String a s' => String a <$> chomp s'
  end.

(** [re.match("^" + r + "$", s)] is not [None].  Without MULTILINE, [^]
    holds at the start only and [$] holds at the end of the string and
    just before a newline that is its last character. *)
Definition match_anchored (r : regex) (s : string) : bool :=
  accepts r s || match chomp s with
                 | Some s' => accepts r s'
                 | None => false
                 end.

(** The words of a regular expression. *)
Fixpoint lang (r : regex) (s : string) : Prop :=
  match r with
  | Void => False
  | Eps => s = EmptyString
  | Class p => ∃ a, p a = true ∧ s = String a EmptyString
  | Cat r1 r2 => ∃ s1 s2, s = s1 +:+ s2 ∧ lang r1 s1 ∧ lang r2 s2
  | Alt r1 r2 => lang r1 s ∨ lang r2 s
  | Star r1 =>
      ∃ ws : list string, s = String.concat EmptyString ws
                          ∧ Forall (λ w, w ≠ EmptyString ∧ lang r1 w) ws
  end.

End Re.

(** * Model tables *)

(** lists derived from https://platform.openai.com/docs/models *)
Definition chat_models : list string :=
  [ "gpt-4"; "gpt-4-turbo"; "gpt-4o"; "gpt-4o-mini"; "gpt-4-turbo-preview";
    "gpt-3.5-turbo"; "gpt-4-32k"; "gpt-4-0125-preview"; "gpt-4-1106-preview";
    "gpt-4-vision-preview"; "gpt-4-1106-vision-preview"; "gpt-4-0613";
    "gpt-4-32k"; "gpt-4-32k-0613"; "gpt-3.5-turbo-0125"; "gpt-3.5-turbo-1106";
    "gpt-3.5-turbo-16k"; "gpt-3.5-turbo-0613"; "gpt-3.5-turbo-16k-0613" ].

Definition completion_models : list string :=
  [ "gpt-3.5-turbo-instruct"; "davinci-002"; "babbage-002";
    "davinci-instruct-beta" ].

Definition context_lengths : gmap string Z :=
  list_to_map
    [ ("gpt-3.5-turbo-0125", 16385); ("gpt-3.5-turbo", 16385);
      ("gpt-3.5-turbo-1106", 16385); ("gpt-3.5-turbo-instruct", 4096);
      ("gpt-3.5-turbo-16k", 16385); ("gpt-3.5-turbo-0613", 4096);
      ("gpt-3.5-turbo-16k-0613", 16385); ("babbage-002", 16384);
      ("davinci-002", 16384); ("gpt-4-turbo", 128000);
      ("gpt-4-turbo-2024-04-09", 128000); ("gpt-4-turbo-preview", 128000);
      ("gpt-4-0125-preview", 128000); ("gpt-4-1106-preview", 128000);
      ("gpt-4-vision-preview", 128000); ("gpt-4-1106-vision-preview", 128000);
      ("gpt-4", 8192); ("gpt-4-0613", 8192); ("gpt-4-32k", 32768);
      ("gpt-4-32k-0613", 32768) ].

(** r"^.+-[01][0-9][0-3][0-9]$", between its anchors *)
Definition mmdd_pattern : Re.regex :=
  Re.Cat (Re.plus Re.dot)
    (Re.Cat (Re.lit PyStr.hyphen)
       (Re.Cat (Re.one_of "0" "1")
          (Re.Cat (Re.range "0" "9")
             (Re.Cat (Re.range "0" "3") (Re.range "0" "9"))))).

(** * Python values and exceptions *)

(** The values that pass through the generator: configuration entries,
    prompts, results.  Floats are binary64 and are only carried along,
    never computed with. *)

#[local] Set Warnings "-register-all,-inexact-float".

Inductive value : Type :=
| VNone
| VBool (b : bool)
| VInt (z : Z)
| VFloat (f : float)
| VStr (s : string)
| VList (l : list value)
| VDict (d : list (string * value)).

(** [v is not None] *)
Definition is_not_None (v : value) : Prop := v ≠ VNone.

Global Instance is_not_None_dec v : Decision (is_not_None v).
Proof. unfold is_not_None. destruct v; (by left) || (right; by intros []). Defined.

Inductive exn : Type :=
| ValueError (msg : string)
| AttributeError (msg : string)
| RateLimitError
| InternalServerError
| APITimeoutError
| APIConnectionError
| BadRequestError
| OtherAPIError (cls : string)
| JSONDecodeError
| GarakBackoffTrigger (cause : exn).

(** How a call ends: with a value or with a raised exception. *)
Inductive result (A : Type) : Type :=
| Return (a : A)
| Raise (e : exn).
Arguments Return {A} a.
Arguments Raise {A} e.

(** * The client object and the remote provider *)

(** [openai.OpenAI(api_key=...)] *)
Record OpenAI : Type := { client_api_key : string }.

(** [client.completions] and [client.chat.completions] of a client. *)
Inductive resource : Type :=
| completions (c : OpenAI)
| chat_completions (c : OpenAI).

Global Instance OpenAI_eq_dec : EqDecision OpenAI.
Proof. solve_decision. Defined.
Global Instance resource_eq_dec : EqDecision resource.
Proof. solve_decision. Defined.

(** One element of [response.choices]: a completion choice has [.text],
    a chat choice has [.message.content], which may be [None]. *)
Inductive choice : Type :=
| TextChoice (text : string)
| MessageChoice (content : option string).

(** What one call of [generator.create] with the keyword arguments does. *)
Inductive netresult : Type :=
| Response (choices : list choice)
| Fault (e : exn).

(** A request as it leaves [_call_model]: the resource whose [create] is
    called and the keyword arguments. *)
Record request : Type :=
  { target : resource; kwargs : gmap string value }.

(** The provider as seen from one generator: what [client.models.list()]
    does (the model ids it returns, or the exception it raises), what
    its [i]-th [create] call answers, the requests received so far and the
    seconds the caller has slept between attempts. *)
Record world : Type :=
  { models_list : result (list string);
    net : nat → netresult;
    sent : list request;
    slept : list Z }.

Definition record_request (rq : request) (w : world) : world :=
  {| models_list := models_list w; net := net w;
     sent := sent w ++ [rq]; slept := slept w |}.

Definition sleep (seconds : Z) (w : world) : world :=
  {| models_list := models_list w; net := net w;
     sent := sent w; slept := slept w ++ [seconds] |}.

(** * The generator instance *)

Record OpenAIGenerator : Type :=
  { name : string;
    api_key : string;
    generator_family_name : string;
    temperature : value;
    max_tokens : value;
    top_p : value;
    frequency_penalty : value;
    presence_penalty : value;
    stop : value;
    seed : value;
    suppressed_params : gset string;
    retry_json : bool;
    context_len : option Z;
    client : option OpenAI;
    generator : option resource }.

Definition set_client (c : option OpenAI) (self : OpenAIGenerator) :=
  {| name := name self; api_key := api_key self;
     generator_family_name := generator_family_name self;
     temperature := temperature self; max_tokens := max_tokens self;
     top_p := top_p self; frequency_penalty := frequency_penalty self;
     presence_penalty := presence_penalty self; stop := stop self;
     seed := seed self; suppressed_params := suppressed_params self;
     retry_json := retry_json self; context_len := context_len self;
     client := c; generator := generator self |}.

Definition set_generator (g : option resource) (self : OpenAIGenerator) :=
  {| name := name self; api_key := api_key self;
     generator_family_name := generator_family_name self;
     temperature := temperature self; max_tokens := max_tokens self;
     top_p := top_p self; frequency_penalty := frequency_penalty self;
     presence_penalty := presence_penalty self; stop := stop self;
     seed := seed self; suppressed_params := suppressed_params self;
     retry_json := retry_json self; context_len := context_len self;
     client := client self; generator := g |}.

Definition set_suppressed_params (s : gset string) (self : OpenAIGenerator) :=
  {| name := name self; api_key := api_key self;
     generator_family_name := generator_family_name self;
     temperature := temperature self; max_tokens := max_tokens self;
     top_p := top_p self; frequency_penalty := frequency_penalty self;
     presence_penalty := presence_penalty self; stop := stop self;
     seed := seed self; suppressed_params := s;
     retry_json := retry_json self; context_len := context_len self;
     client := client self; generator := generator self |}.

(** The configured attributes of an instance, as [_load_config] leaves
    them; [max_tokens] comes from the defaults of the base class. *)
Record config : Type :=
  { cfg_api_key : string;
    cfg_temperature : value;
    cfg_max_tokens : value;
    cfg_top_p : value;
    cfg_frequency_penalty : value;
    cfg_presence_penalty : value;
    cfg_stop : value;
    cfg_seed : value;
    cfg_suppressed_params : gset string;
    cfg_retry_json : bool }.

(** [OpenAICompatible.DEFAULT_PARAMS] over the base class's defaults. *)
Definition DEFAULT_PARAMS (key : string) (base_max_tokens : value) : config :=
  {| cfg_api_key := key;
     cfg_temperature := VFloat 0.7%float;
     cfg_max_tokens := base_max_tokens;
     cfg_top_p := VFloat 1.0%float;
     cfg_frequency_penalty := VFloat 0.0%float;
     cfg_presence_penalty := VFloat 0.0%float;
     cfg_stop := VList [VStr "#"; VStr ";"];
     cfg_seed := VNone;
     cfg_suppressed_params := ∅;
     cfg_retry_json := true |}.

(** * [OpenAIGenerator._load_client] and [_clear_client] *)

Definition model_name_required (family : string) (listing : list string) : string :=
  "Model name is required for " +:+ family +:+ ", use --model_name" +:+
  String PyStr.newline "  API returns following available models: ▶️   " +:+
  PyStr.join "  " listing +:+
  String PyStr.newline "  ⚠️  Not all these are text generation models".

Definition no_api_defined (family model : string) : string :=
  "No " +:+ family +:+ " API defined for '" +:+ model +:+
  "' in generators/openai.py - please add one!".

(** The third test of the routing chain. *)
Definition dated_suffix (nm : string) : bool :=
  PyStr.in_tuple (PyStr.join "-" (PyStr.but_last (PyStr.split "-" nm))) chat_models
  && Re.match_anchored mmdd_pattern nm.

(** The exception, if any, is raised after [self.client] has been bound.
    For the empty name the listing is asked of the provider first: an
    exception of that call goes to the caller as it is. *)
Definition _load_client (w : world) (self : OpenAIGenerator)
  : OpenAIGenerator * result unit :=
  let c := {| client_api_key := api_key self |} in
  let self := set_client (Some c) self in
  if decide (name self = "") then
    match models_list w with
    | Raise e => (self, Raise e)
    | Return data =>
        let openai_model_list := merge_sort (≤)%string data in
        (self, Raise (ValueError
           (model_name_required (generator_family_name self) openai_model_list)))
    end
  else if PyStr.in_tuple (name self) completion_models then
    (set_generator (Some (completions c)) self, Return ())
  else if PyStr.in_tuple (name self) chat_models then
    (set_generator (Some (chat_completions c)) self, Return ())
  else if dated_suffix (name self) then
    (set_generator (Some (completions c)) self, Return ())
  else
    (self, Raise (ValueError
       (no_api_defined (generator_family_name self) (name self)))).

Definition _clear_client (self : OpenAIGenerator) : OpenAIGenerator :=
  set_client None (set_generator None self).

(** * Construction and pickling *)

Definition unsupported_at_generation : string :=
  "Unsupported model at generation time in generators/openai.py - please add a clause!".

(** [self.generator not in (self.client.chat.completions, self.client.completions)] *)
Definition generator_supported (self : OpenAIGenerator) : bool :=
  match client self, generator self with
  | Some c, Some g =>
      bool_decide (g = chat_completions c) || bool_decide (g = completions c)
  | _, _ => false
  end.

(** The attributes as [OpenAIGenerator.__init__] and [_load_config] set
    them, before any client is made. *)
Definition unloaded (nm : string) (cfg : config) : OpenAIGenerator :=
  {| name := nm; api_key := cfg_api_key cfg;
     generator_family_name := "OpenAI";
     temperature := cfg_temperature cfg; max_tokens := cfg_max_tokens cfg;
     top_p := cfg_top_p cfg;
     frequency_penalty := cfg_frequency_penalty cfg;
     presence_penalty := cfg_presence_penalty cfg;
     stop := cfg_stop cfg; seed := cfg_seed cfg;
     suppressed_params := cfg_suppressed_params cfg;
     retry_json := cfg_retry_json cfg;
     context_len := context_lengths !! nm;
     client := None; generator := None |}.

(** [OpenAIGenerator.__init__] followed by [OpenAICompatible.__init__].
    [fullname] and [key_env_var] are not kept, and the initialiser of the
    base class [Generator], which is not in this file, is taken to leave
    the attributes above as they are. *)
Definition __init__ (w : world) (nm : string) (cfg : config)
  : result OpenAIGenerator :=
  match _load_client w (unloaded nm cfg) with
  | (_, Raise e) => Raise e
  | (self, Return _) =>
      if generator_supported self then Return (_clear_client self)
      else Raise (ValueError unsupported_at_generation)
  end.

(** [__getstate__]: the instance after the call and the pickled copy of
    its attributes. *)
Definition __getstate__ (self : OpenAIGenerator)
  : OpenAIGenerator * OpenAIGenerator :=
  let self := _clear_client self in (self, self).

(** [__setstate__] on a fresh object: the attributes of [d], then
    [_load_client]. *)
Definition __setstate__ (w : world) (d : OpenAIGenerator)
  : OpenAIGenerator * result unit :=
  _load_client w d.

(** * [OpenAICompatible._call_model] *)

Definition create_args_literal (self : OpenAIGenerator)
    (generations_this_call : value) : list (string * value) :=
  [ ("model", VStr (name self));
    ("temperature", temperature self);
    ("max_tokens", max_tokens self);
    ("n", generations_this_call);
    ("top_p", top_p self);
    ("frequency_penalty", frequency_penalty self);
    ("presence_penalty", presence_penalty self);
    ("stop", stop self);
    ("seed", seed self) ].

(** The dictionary after the comprehension that drops [None] values and
    suppressed keys. *)
Definition create_args (self : OpenAIGenerator)
    (generations_this_call : value) : gmap string value :=
  filter (λ kv, is_not_None kv.2 ∧ kv.1 ∉ suppressed_params self)
         (list_to_map (create_args_literal self generations_this_call)).

(** Where the body of [_call_model] stands when it reaches the network:
    it has returned or raised already, or it calls [create]. *)
Inductive prepared : Type :=
| Early (r : result value)
| Send (rq : request).

Definition none_has_no (attr : string) : exn :=
  AttributeError ("'NoneType' object has no attribute '" +:+ attr +:+ "'").

Definition user_message (prompt : string) : value :=
  VDict [("role", VStr "user"); ("content", VStr prompt)].

(** The body of [_call_model] from the assembly of the arguments to the
    call of [self.generator.create]. *)
Definition request_for (self : OpenAIGenerator)
    (prompt generations_this_call : value) : prepared :=
  let args := create_args self generations_this_call in
  match client self with
  | None => Early (Raise (none_has_no "completions"))
  | Some c =>
      let call args :=
        match generator self with
        | None => Early (Raise (none_has_no "create"))
        | Some g => Send {| target := g; kwargs := args |}
        end in
      if decide (generator self = Some (completions c)) then
        match prompt with
        | VStr _ => call (<["prompt" := prompt]> args)
        | _ => Early (Return (VList []))
        end
      else if decide (generator self = Some (chat_completions c)) then
        match prompt with
        | VStr p => call (<["messages" := VList [user_message p]]> args)
        | VList _ => call (<["messages" := prompt]> args)
        | _ => Early (Return (VList []))
        end
      else call args
  end.

(** The body of [_call_model] up to that call: the client is reloaded
    first when it is [None]. *)
Definition prepare (w : world) (self : OpenAIGenerator)
    (prompt generations_this_call : value) : OpenAIGenerator * prepared :=
  let '(self, loaded) :=
    match client self with
    | None => _load_client w self
    | Some _ => (self, Return ())
    end in
  match loaded with
  | Raise e => (self, Early (Raise e))
  | Return _ => (self, request_for self prompt generations_this_call)
  end.

(** [[c.text for c in response.choices]] *)
Fixpoint texts (cs : list choice) : result (list value) :=
  match cs with
  | [] => Return []
  | TextChoice t :: cs' =>
      match texts cs' with
      | Return l => Return (VStr t :: l)
      | Raise e => Raise e
      end
  | MessageChoice _ :: _ =>
      Raise (AttributeError "'Choice' object has no attribute 'text'")
  end.

(** [[c.message.content for c in response.choices]] *)
Fixpoint contents (cs : list choice) : result (list value) :=
  match cs with
  | [] => Return []
  | MessageChoice m :: cs' =>
      match contents cs' with
      | Return l => Return (from_option VStr VNone m :: l)
      | Raise e => Raise e
      end
  | TextChoice _ :: _ =>
      Raise (AttributeError "'CompletionChoice' object has no attribute 'message'")
  end.

Definition as_list (r : result (list value)) : result value :=
  match r with
  | Return l => Return (VList l)
  | Raise e => Raise e
  end.

(** The body of [_call_model] from the [try] on, given what [create] did. *)
Definition conclude (self : OpenAIGenerator) (nr : netresult) : result value :=
  match nr with
  | Fault BadRequestError => Return (VList [VNone])
  | Fault JSONDecodeError =>
      if retry_json self then Raise (GarakBackoffTrigger JSONDecodeError)
      else Raise JSONDecodeError
  | Fault e => Raise e
  | Response choices =>
      match client self with
      | None => Raise (none_has_no "completions")
      | Some c =>
          if decide (generator self = Some (completions c)) then
            as_list (texts choices)
          else if decide (generator self = Some (chat_completions c)) then
            as_list (contents choices)
          else Return VNone
      end
  end.

(** One run of the undecorated [_call_model]. *)
Definition _call_model_once (prompt generations_this_call : value)
    (self : OpenAIGenerator) (w : world)
  : OpenAIGenerator * world * result value :=
  match prepare w self prompt generations_this_call with
  | (self, Early r) => (self, w, r)
  | (self, Send rq) =>
      let nr := net w (length (sent w)) in
      (self, record_request rq w, conclude self nr)
  end.

(** * The retry decorator *)

Module Backoff.

(** Modelled from the spec: the [backoff] package that provides
    [backoff.fibo] and [backoff.on_exception] is not among the sources.
    The wait generator [fibo(max_value)] is kept as its pair of numbers
    [(a, b)], starting from [(1, 1)]: each wait is the sum of the two
    before it until that reaches [max_value], and [max_value] from
    then on. *)
Definition fibo_init : Z * Z := (1, 1).

Definition fibo_next (max_value : Z) (ab : Z * Z) : Z * (Z * Z) :=
  let '(a, b) := ab in
  if a <? max_value then (a, (b, a + b)) else (max_value, (a, b)).

(** The first [k] waits from a state of the generator. *)
Fixpoint fibo_waits (max_value : Z) (k : nat) (ab : Z * Z) : list Z :=
  match k with
  | O => []
  | S k' =>
      let '(x, ab') := fibo_next max_value ab in
      x :: fibo_waits max_value k' ab'
  end.

Section on_exception.
Context {S A : Type}.
(** the exception classes given to the decorator *)
Variable retry_on : exn → bool.
Variable max_value : Z.
Variable target : S → world → S * world * result A.

(** Modelled from the spec: the loop of [backoff.on_exception] with
    neither [max_tries] nor [max_time]: call the target; an
    exception of a listed class makes it take the next wait, sleep and
    call again; any other exception goes to the caller and a value is
    returned.  [fuel] bounds the number of calls; [None] is "not done
    within the fuel". *)
Fixpoint on_exception (fuel : nat) (wait : Z * Z) (s : S) (w : world)
  : option (S * world * result A) :=
  match fuel with
  | O => None
  | Datatypes.S fuel' =>
      match target s w with
      | (s', w', Return a) => Some (s', w', Return a)
      | (s', w', Raise e) =>
          if retry_on e then
            let '(seconds, wait') := fibo_next max_value wait in
            on_exception fuel' wait' s' (sleep seconds w')
          else Some (s', w', Raise e)
      end
  end.
End on_exception.

End Backoff.

(** The classes listed in the decorator of [_call_model]. *)
Definition retried (e : exn) : bool :=
  match e with
  | RateLimitError | InternalServerError | APITimeoutError
  | APIConnectionError | GarakBackoffTrigger _ => true
  | _ => false
  end.

Definition max_value : Z := 70.

(** [_call_model] as decorated, from a given state of the wait generator. *)
Definition _call_model_from (fuel : nat) (wait : Z * Z)
    (prompt generations_this_call : value)
    (self : OpenAIGenerator) (w : world)
  : option (OpenAIGenerator * world * result value) :=
  Backoff.on_exception retried max_value
    (_call_model_once prompt generations_this_call) fuel wait self w.

(** [self._call_model(prompt, generations_this_call)] *)
Definition _call_model (fuel : nat) (prompt generations_this_call : value)
    (self : OpenAIGenerator) (w : world)
  : option (OpenAIGenerator * world * result value) :=
  _call_model_from fuel Backoff.fibo_init prompt generations_this_call self w.

(** ** A provider and a configuration for the runs *)

Definition quiet (answer : nat → netresult) : world :=
  {| models_list := Return ["gpt-4"; "babbage-002"]; net := answer;
     sent := []; slept := [] |}.

Definition demo_cfg : config := DEFAULT_PARAMS "sk-test" (VInt 150).

Definition constructed (nm : string) : option OpenAIGenerator :=
  match __init__ (quiet (λ _, Fault RateLimitError)) nm demo_cfg with
  | Return self => Some self
  | Raise _ => None
  end.

Definition rate_limited_then (k : nat) (cs : list choice) (i : nat) : netresult :=
  if (i <? k)%nat then Fault RateLimitError else Response cs.

Definition run_result (nm : string) (fuel : nat) (prompt n : value)
    (answer : nat → netresult) : option (result value * list Z * nat) :=
  self ← constructed nm;
  '(_, w, r) ← _call_model fuel prompt n self (quiet answer);
  Some (r, slept w, length (sent w)).

(** * The router as the specification words it *)

Module ModelRouter.

Inductive EndpointVariant : Type := Chat | Completion.

Definition digit (c : ascii) : Prop :=
  (N_of_ascii "0" ≤ N_of_ascii c ≤ N_of_ascii "9")%N.

(** What the pattern of the code lets through as a suffix: [01], a
    digit, [0-3], a digit, and also these four with a final newline. *)
Definition mmdd (sfx : string) : Prop :=
  ∃ m1 m2 d1 d2 : ascii,
    (m1 = "0"%char ∨ m1 = "1"%char) ∧ digit m2 ∧
    (N_of_ascii "0" ≤ N_of_ascii d1 ≤ N_of_ascii "3")%N ∧ digit d2 ∧
    let four := String m1 (String m2 (String d1 (String d2 ""))) in
    sfx = four ∨ sfx = four +:+ String PyStr.newline "".

(** The name is a chat-model name, a hyphen and a suffix that the
    pattern of the code lets through. *)
Definition dated (nm : string) : Prop :=
  ∃ base sfx, nm = base +:+ String PyStr.hyphen sfx
              ∧ base ∈ chat_models ∧ mmdd sfx.

(** The group of four digits alone. *)
Definition four_digits (sfx : string) : Prop :=
  ∃ m1 m2 d1 d2 : ascii,
    (m1 = "0"%char ∨ m1 = "1"%char) ∧ digit m2 ∧
    (N_of_ascii "0" ≤ N_of_ascii d1 ≤ N_of_ascii "3")%N ∧ digit d2 ∧
    sfx = String m1 (String m2 (String d1 (String d2 ""))).

(** Stripping the trailing hyphenated suffix of the name gives a
    chat-model name, and the suffix is a group of four digits. *)
Definition dated_snapshot (nm : string) : Prop :=
  ∃ base sfx, nm = base +:+ String PyStr.hyphen sfx
              ∧ base ∈ chat_models ∧ four_digits sfx.

(** The resource of client [c] that serves a variant. *)
Definition serves (v : EndpointVariant) (c : OpenAI) : resource :=
  match v with
  | Completion => completions c
  | Chat => chat_completions c
  end.

End ModelRouter.

(** The six sampling keys of the configuration. *)
Definition sampling_keys : list string :=
  ["temperature"; "top_p"; "frequency_penalty"; "presence_penalty";
   "seed"; "stop"].

(** * Lifecycle invariant *)

(** The model name of the instance is one [_load_client] accepts. *)
Definition routable (self : OpenAIGenerator) : Prop :=
  ∃ self', ∀ w, _load_client w self = (self', Return ()).

(** No client and no generator are bound. *)
Definition detached (self : OpenAIGenerator) : Prop :=
  client self = None ∧ generator self = None.

(** The client and generator bound are those [_load_client] binds. *)
Definition attached (self : OpenAIGenerator) : Prop :=
  ∀ w, _load_client w self = (self, Return ()).

Definition consistent (self : OpenAIGenerator) : Prop :=
  routable self ∧ (detached self ∨ attached self).

(** The instances a program can hold: built by [__init__], then moved by
    the methods of the class. *)
Inductive reachable : OpenAIGenerator → Prop :=
| reach_init w nm cfg self :
    __init__ w nm cfg = Return self → reachable self
| reach_clear self :
    reachable self → reachable (_clear_client self)
| reach_load w self :
    reachable self → reachable (_load_client w self).1
| reach_getstate self :
    reachable self → reachable (__getstate__ self).2
| reach_setstate w d :
    reachable d → reachable (__setstate__ w d).1
| reach_call w prompt n self :
    reachable self → reachable (_call_model_once prompt n self w).1.1.

(** * The claims of the specification as predicates *)

(** The client of an instance, as [_load_client] makes it. *)
Definition its_client (self : OpenAIGenerator) : OpenAI :=
  {| client_api_key := api_key self |}.

(** [_load_client] succeeds on [self] and binds the resource of variant
    [v]. *)
Definition resolves_to (w : world) (self : OpenAIGenerator)
    (v : ModelRouter.EndpointVariant) : Prop :=
  (_load_client w self).2 = Return () ∧
  client (_load_client w self).1 = Some (its_client self) ∧
  generator (_load_client w self).1
  = Some (ModelRouter.serves v (its_client self)).

(** [_load_client] raises the error that names the model, and the
    message has the name in it. *)
Definition unsupported (w : world) (self : OpenAIGenerator) : Prop :=
  (_load_client w self).2
  = Raise (ValueError (no_api_defined (generator_family_name self) (name self)))
  ∧ ∃ pre post,
      no_api_defined (generator_family_name self) (name self)
      = pre +:+ name self +:+ post.

(** The order of the routing decision, on any instance that loads its
    client. *)
Definition loads_in_order (w : world) (self : OpenAIGenerator) : Prop :=
  let nm := name self in
  (nm ∈ completion_models → resolves_to w self ModelRouter.Completion) ∧
  (nm ∉ completion_models → nm ∈ chat_models →
   resolves_to w self ModelRouter.Chat) ∧
  (nm ∉ completion_models → nm ∉ chat_models → ModelRouter.dated nm →
   resolves_to w self ModelRouter.Completion) ∧
  (nm ∉ completion_models → nm ∉ chat_models → ¬ ModelRouter.dated nm →
   unsupported w self).

(** Construction succeeds and the variant it resolves is [v]. *)
Definition constructs_as (w : world) (nm : string) (cfg : config)
    (v : ModelRouter.EndpointVariant) : Prop :=
  (∃ self, __init__ w nm cfg = Return self) ∧
  resolves_to w (unloaded nm cfg) v.

(** Construction fails with the error that names the model. *)
Definition construction_unsupported (w : world) (nm : string) (cfg : config)
  : Prop :=
  __init__ w nm cfg = Raise (ValueError (no_api_defined "OpenAI" nm)) ∧
  unsupported w (unloaded nm cfg).

(** Construction fails with an error that names the model: a
    [ValueError] with the name in its message. *)
Definition fails_naming (w : world) (nm : string) (cfg : config) : Prop :=
  ∃ msg, __init__ w nm cfg = Raise (ValueError msg) ∧
         ∃ pre post, msg = pre +:+ nm +:+ post.

(** The order of the routing decision at construction. *)
Definition routes_in_order (w : world) (nm : string) (cfg : config) : Prop :=
  (nm ∈ completion_models → constructs_as w nm cfg ModelRouter.Completion) ∧
  (nm ∉ completion_models → nm ∈ chat_models →
   constructs_as w nm cfg ModelRouter.Chat) ∧
  (nm ∉ completion_models → nm ∉ chat_models → ModelRouter.dated_snapshot nm →
   constructs_as w nm cfg ModelRouter.Completion) ∧
  (nm ∉ completion_models → nm ∉ chat_models → ¬ ModelRouter.dated_snapshot nm →
   fails_naming w nm cfg).

(** The name ends in a newline. *)
Definition line_ended (nm : string) : Prop :=
  ∃ s, nm = s +:+ String PyStr.newline "".

(** The handle is absent right after a pickle round trip. *)
Definition absent_after_restore (w : world) (self : OpenAIGenerator) : Prop :=
  client (__setstate__ w (__getstate__ self).2).1 = None.

(** ** The body of [_call_model] on a routed instance *)

(** The routing chain of [_load_client] on a name alone. *)
Definition route_of (nm : string) : option ModelRouter.EndpointVariant :=
  if decide (nm = "") then None
  else if PyStr.in_tuple nm completion_models then Some ModelRouter.Completion
  else if PyStr.in_tuple nm chat_models then Some ModelRouter.Chat
  else if dated_suffix nm then Some ModelRouter.Completion
  else None.

(** The exception that [_load_client] raises. *)
Definition load_error (w : world) (self : OpenAIGenerator) : exn :=
  if decide (name self = "") then
    match models_list w with
    | Raise e => e
    | Return data =>
        ValueError (model_name_required (generator_family_name self)
                      (merge_sort (≤)%string data))
    end
  else ValueError (no_api_defined (generator_family_name self) (name self)).

(** The instance with the client and the resource of variant [v] bound. *)
Definition loaded_as (v : ModelRouter.EndpointVariant)
    (self : OpenAIGenerator) : OpenAIGenerator :=
  set_generator (Some (ModelRouter.serves v (its_client self)))
    (set_client (Some (its_client self)) self).

(** What the body does with a prompt once the variant is [v] and the
    filtered arguments are [args]. *)
Definition shaped (v : ModelRouter.EndpointVariant) (c : OpenAI)
    (args : gmap string value) (prompt : value) : prepared :=
  match v, prompt with
  | ModelRouter.Completion, VStr _ =>
      Send {| target := completions c; kwargs := <["prompt" := prompt]> args |}
  | ModelRouter.Chat, VStr p =>
      Send {| target := chat_completions c;
              kwargs := <["messages" := VList [user_message p]]> args |}
  | ModelRouter.Chat, VList _ =>
      Send {| target := chat_completions c;
              kwargs := <["messages" := prompt]> args |}
  | _, _ => Early (Return (VList []))
  end.

(** ** Retries *)

(** The world after [k] attempts that sent [rq], with a wait after each
    attempt but the last. *)
Definition after_attempts (k : nat) (wait : Z * Z) (rq : request)
    (w : world) : world :=
  {| models_list := models_list w; net := net w;
     sent := sent w ++ replicate k rq;
     slept := slept w ++ Backoff.fibo_waits max_value (pred k) wait |}.

(** The decorator retries after this result of the body. *)
Definition retried_result (r : result value) : Prop :=
  ∃ e, r = Raise e ∧ retried e = true.

(** The decorator hands this result of the body to the caller. *)
Definition final_result (r : result value) : Prop :=
  match r with
  | Return _ => True
  | Raise e => retried e = false
  end.

(** ** Instances for the runs below *)


Definition attached_gpt4 : OpenAIGenerator :=
  loaded_as ModelRouter.Chat (unloaded "gpt-4" demo_cfg).
Definition fresh_gpt4 : OpenAIGenerator := _clear_client attached_gpt4.
Definition fresh_0613 : OpenAIGenerator :=
  _clear_client (loaded_as ModelRouter.Chat (unloaded "gpt-4-0613" demo_cfg)).

Definition without_n : OpenAIGenerator :=
  set_suppressed_params {["n"]} fresh_gpt4.

Definition gpt4_request (k : Z) : request :=
  {| target := chat_completions (its_client fresh_gpt4);
     kwargs := <["messages" := VList [user_message "hi"]]>
                 (create_args fresh_gpt4 (VInt k)) |}.

Definition strict_cfg : config :=
  {| cfg_api_key := "sk-test";
     cfg_temperature := VFloat 0.7%float;
     cfg_max_tokens := VInt 150;
     cfg_top_p := VFloat 1.0%float;
     cfg_frequency_penalty := VFloat 0.0%float;
     cfg_presence_penalty := VFloat 0.0%float;
     cfg_stop := VList [VStr "#"; VStr ";"];
     cfg_seed := VNone;
     cfg_suppressed_params := ∅;
     cfg_retry_json := false |}.

Definition strict_babbage : OpenAIGenerator :=
  _clear_client (loaded_as ModelRouter.Completion (unloaded "babbage-002" strict_cfg)).

Definition babbage_request : request :=
  {| target := completions (its_client strict_babbage);
     kwargs := <["prompt" := VStr "hi"]> (create_args strict_babbage (VInt 1)) |}.

Definition fresh_davinci : OpenAIGenerator :=
  _clear_client (loaded_as ModelRouter.Completion (unloaded "davinci-002" demo_cfg)).

(** * Further notions for the properties of the code *)

(** The four provider errors listed in the decorator of [_call_model]. *)
Definition transient (e : exn) : Prop :=
  e ∈ [RateLimitError; InternalServerError; APITimeoutError; APIConnectionError].

(** The keys of the dictionary literal of [_call_model]. *)
Definition assembled_keys : list string :=
  ["model"; "temperature"; "max_tokens"; "n"; "top_p"; "frequency_penalty";
   "presence_penalty"; "stop"; "seed"].

(** The name sends [_load_client] to [client.completions]: it is a
    completion-model name, or it is in neither table and passes the
    dated-suffix test. *)
Definition completion_shaped (nm : string) : Prop :=
  nm ∈ completion_models
  ∨ ((nm ∉ completion_models) ∧ (nm ∉ chat_models) ∧ dated_suffix nm = true).

(** The message list made from a string prompt. *)
Definition single_user_message (s : string) : value :=
  VList [VDict [("role", VStr "user"); ("content", VStr s)]].

Definition fresh_0314 : OpenAIGenerator :=
  _clear_client (loaded_as ModelRouter.Completion (unloaded "gpt-4-0314" demo_cfg)).

Definition without_prompt : OpenAIGenerator :=
  set_suppressed_params (suppressed_params fresh_gpt4 ∪ {["prompt"]}) fresh_gpt4.

(** A provider that fails three times, each time another way, and then
    answers. *)
Definition flaky (i : nat) : netresult :=
  match i with
  | 0%nat => Fault APITimeoutError
  | 1%nat => Fault InternalServerError
  | 2%nat => Fault APIConnectionError
  | _ => Response [MessageChoice (Some "ok")]
  end.

(** * The prompt reader (code/probe.py) *)

Module Probe.

(** [s[i:].startswith(old)] at the head of [s]. *)
Fixpoint starts_with (old s : string) : bool :=
  match old, s with
  | EmptyString, _ => true
  | String a old', String b s' => bool_decide (a = b) && starts_with old' s'
  | String _ _, EmptyString => false
  end.

(** [s.replace(old, new)] for a pattern that is not empty: the
    occurrences of [old] are found from the left and do not overlap;
    [skip] counts the characters of an occurrence still to pass. *)
Fixpoint replace_go (old new : string) (skip : nat) (s : string) : string :=
  match s with
  | EmptyString => EmptyString
  | String c s' =>
      match skip with
      | S k => replace_go old new k s'
      | O =>
          if starts_with old s
          then new +:+ replace_go old new (pred (String.length old)) s'
          else String c (replace_go old new 0 s')
      end
  end.

Definition replace (old new s : string) : string := replace_go old new 0 s.

Definition placeholder : string := "<content>".

(** The exceptions of the reader's own steps; a JSON decode error and a
    missing file are outcomes of their own below. *)
Inductive error : Type :=
| KeyError (key : string)
| TypeError
| AttributeError.

(** One step: done, failed with an exception that is not caught, or
    stopped by [json.JSONDecodeError]. *)
Inductive step (A : Type) : Type :=
| Done (a : A)
| Fail (e : error)
| Undecodable.
Arguments Done {A} a.
Arguments Fail {A} e.
Arguments Undecodable {A}.

(** [open(file_path, 'r')] and the iteration over the file: the lines,
    each with its line end, or [FileNotFoundError]; other failures of
    the file system are left out. *)
Inductive file : Type :=
| FileNotFound
| Opened (lines : list string).

(** An element of the list returned: the dictionary with the keys "id"
    and "prompt". *)
Record entry : Type := { entry_id : value; entry_prompt : value }.

(** What the call gives: the list, or [None] after the message printed,
    or an exception. *)
Inductive outcome : Type :=
| Data (data : list entry)
| NoData (printed : string)
| Raised (e : error).

(** [d[key]] on the items of a dictionary, each key once. *)
Fixpoint item (key : string) (d : list (string * value)) : option value :=
  match d with
  | [] => None
  | (k, v) :: d' => if decide (k = key) then Some v else item key d'
  end.

(** [obj[key]] with a string key: only a dictionary can be indexed so. *)
Definition getitem (obj : value) (key : string) : step value :=
  match obj with
  | VDict d =>
      match item key d with
      | Some v => Done v
      | None => Fail (KeyError key)
      end
  | _ => Fail TypeError
  end.

(** [instruction.replace('<content>', content)] on values: the receiver
    must be a string to have the method, the argument a string to be
    accepted. *)
Definition combined (obj : value) : step value :=
  match getitem obj "instruction" with
  | Done (VStr instruction) =>
      match getitem obj "content" with
      | Done (VStr content) => Done (VStr (replace placeholder content instruction))
      | Done _ => Fail TypeError
      | Fail e => Fail e
      | Undecodable => Undecodable
      end
  | Done _ => Fail AttributeError
  | Fail e => Fail e
  | Undecodable => Undecodable
  end.

Section reader.
(** [str.strip] and [json.loads] ([None] for [JSONDecodeError]) and the
    files there are. *)
Variable strip : string → string.
Variable loads : string → option value.
Variable open_ : string → file.

(** The body of the loop for one line. *)
Definition read_line (combine : bool) (line : string) : step entry :=
  match loads (strip line) with
  | None => Undecodable
  | Some json_obj =>
      if combine then
        match combined json_obj with
        | Done prompt =>
            match getitem json_obj "id" with
            | Done i => Done {| entry_id := i; entry_prompt := prompt |}
            | Fail e => Fail e
            | Undecodable => Undecodable
            end
        | Fail e => Fail e
        | Undecodable => Undecodable
        end
      else
        match getitem json_obj "id" with
        | Done i =>
            match getitem json_obj "content" with
            | Done c => Done {| entry_id := i; entry_prompt := c |}
            | Fail e => Fail e
            | Undecodable => Undecodable
            end
        | Fail e => Fail e
        | Undecodable => Undecodable
        end
  end.

(** The loop over the lines, [data] being the list so far. *)
Fixpoint read_lines (combine : bool) (lines : list string)
    (data : list entry) : step (list entry) :=
  match lines with
  | [] => Done data
  | line :: lines' =>
      match read_line combine line with
      | Done e => read_lines combine lines' (data ++ [e])
      | Fail e => Fail e
      | Undecodable => Undecodable
      end
  end.

Definition read_sci_safe_eval (file_path : string) (combine : bool) : outcome :=
  match open_ file_path with
  | FileNotFound => NoData ("File not found: " +:+ file_path)
  | Opened lines =>
      match read_lines combine lines [] with
      | Done data => Data data
      | Fail e => Raised e
      | Undecodable => NoData ("Error decoding JSON in file: " +:+ file_path)
      end
  end.

End reader.

(** ** A small parser and file for the runs *)

Definition record_of (i : Z) (instruction content : string) : value :=
  VDict [("id", VInt i); ("instruction", VStr instruction);
         ("content", VStr content)].

Definition toy_loads (s : string) : option value :=
  if decide (s = "r1") then Some (record_of 1 "Explain <content> briefly" "benzene")
  else if decide (s = "r2") then Some (record_of 2 "Summarise" "<content>")
  else None.

Definition toy_open (path : string) : file :=
  if decide (path = "good.jsonl") then Opened ["r1"; "r2"]
  else if decide (path = "blank.jsonl") then Opened ["r1"; ""; "r2"]
  else FileNotFound.

End Probe.

(** A provider that refuses to list its models. *)
Definition unlisted : world :=
  {| models_list := Raise (OtherAPIError "AuthenticationError");
     net := λ _, Fault (OtherAPIError "AuthenticationError");
     sent := []; slept := [] |}.

(** * Tactics *)

Ltac by_compute :=
  match goal with
  | |- ?P => apply (bool_decide_unpack P); vm_compute; exact I
  end.

Ltac in_list :=
  repeat first [ apply list_elem_of_here | apply list_elem_of_further ].

Ltac kwargs_shape :=
  first [ by left | right; left; by eexists | right; right; by eexists ].

Ltac ltb_cases :=
  repeat match goal with
         | |- context [(?a <? ?b)] => destruct (Z.ltb_spec a b)
         end.

(** * Runs of the model *)

Example split_ex : PyStr.split "-" "gpt-4-0613" = ["gpt"; "4"; "0613"].
Proof. reflexivity. Qed.
Example split_ex2 : PyStr.split "-" "-a--" = [""; "a"; ""; ""].
Proof. reflexivity. Qed.
Example re_ex1 : Re.match_anchored mmdd_pattern "gpt-4-0613" = true.
Proof. vm_compute. reflexivity. Qed.
Example re_ex2 : Re.match_anchored mmdd_pattern "gpt-4-2613" = false.
Proof. vm_compute. reflexivity. Qed.
Example re_ex3 : Re.match_anchored mmdd_pattern "-0613" = false.
Proof. vm_compute. reflexivity. Qed.
Example dated_ex1 : dated_suffix "gpt-4-0314" = true.
Proof. vm_compute. reflexivity. Qed.
Example dated_ex2 : dated_suffix "gpt-4-2024" = false.
Proof. vm_compute. reflexivity. Qed.
Example dated_ex3 : dated_suffix "llama-0613" = false.
Proof. vm_compute. reflexivity. Qed.
(** [$] lets a final newline pass. *)
Example dated_ex4 :
  dated_suffix ("gpt-4-0314" +:+ String PyStr.newline "") = true.
Proof. vm_compute. reflexivity. Qed.

Example run_chat_ok :
  run_result "gpt-4" 5 (VStr "hi") (VInt 2)
    (rate_limited_then 0 [MessageChoice (Some "a"); MessageChoice None])
  = Some (Return (VList [VStr "a"; VNone]), [], 1%nat).
Proof. vm_compute. reflexivity. Qed.

Example run_retries :
  run_result "babbage-002" 20 (VStr "hi") (VInt 1)
    (rate_limited_then 12 [TextChoice "a"])
  = Some (Return (VList [VStr "a"]),
          [1; 1; 2; 3; 5; 8; 13; 21; 34; 55; 70; 70], 13%nat).
Proof. vm_compute. reflexivity. Qed.

Example run_bad_request :
  run_result "gpt-4" 5 (VStr "hi") (VInt 10) (λ _, Fault BadRequestError)
  = Some (Return (VList [VNone]), [], 1%nat).
Proof. vm_compute. reflexivity. Qed.

Example run_shape_mismatch :
  run_result "davinci-002" 5 (VList []) (VInt 1) (λ _, Fault BadRequestError)
  = Some (Return (VList []), [], 0%nat).
Proof. vm_compute. reflexivity. Qed.

Example construct_unknown : constructed "llama" = None.
Proof. vm_compute. reflexivity. Qed.

Example construct_dated :
  (λ self, generator (_load_client (quiet (λ _, Response [])) self).1)
    <$> constructed "gpt-4-0314"
  = Some (Some (completions {| client_api_key := "sk-test" |})).
Proof. vm_compute. reflexivity. Qed.

(** * Facts about strings *)

Section strings.

Lemma app_cons a s t : String a s +:+ t = String a (s +:+ t).
Proof. reflexivity. Qed.

Lemma app_empty_l s : "" +:+ s = s.
Proof. reflexivity. Qed.

Lemma app_empty_r s : s +:+ "" = s.
Proof. induction s as [|a s IH]; [done|]. by rewrite app_cons, IH. Qed.

Lemma app_assoc' s t u : (s +:+ t) +:+ u = s +:+ t +:+ u.
Proof. induction s as [|a s IH]; [done|]. by rewrite !app_cons, IH. Qed.

Lemma split_not_nil sep s : PyStr.split sep s ≠ [].
Proof.
  destruct s as [|c s]; simpl; [done|].
  case_decide; [done|]. by destruct (PyStr.split sep s).
Qed.

Lemma split_free sep s : PyStr.free_of sep s → PyStr.split sep s = [s].
Proof.
  induction s as [|c s IH]; simpl; [done|].
  intros [Hc Hs]. case_decide; [done|]. by rewrite IH.
Qed.

(** Splitting sees a last field that has no separator as it is. *)
Lemma split_snoc sep base sfx :
  PyStr.free_of sep sfx →
  PyStr.split sep (base +:+ String sep sfx) = PyStr.split sep base ++ [sfx].
Proof.
  intros Hfree. induction base as [|c b IH].
  - rewrite app_empty_l. simpl. rewrite decide_True by done.
    by rewrite split_free.
  - rewrite app_cons. simpl. case_decide; [by rewrite IH|].
    rewrite IH. pose proof (split_not_nil sep b).
    by destruct (PyStr.split sep b).
Qed.

Lemma join_split sep s :
  PyStr.join (String sep "") (PyStr.split sep s) = s.
Proof.
  unfold PyStr.join. induction s as [|c s IH]; simpl; [done|].
  pose proof (split_not_nil sep s) as Hne.
  case_decide as Hc.
  - subst c. destruct (PyStr.split sep s) as [|x xs] eqn:E; [done|].
    simpl in *. by rewrite IH.
  - destruct (PyStr.split sep s) as [|x xs] eqn:E; [done|].
    simpl in *. destruct xs; [by rewrite IH|].
    rewrite <- IH. by rewrite app_cons.
Qed.

(** Dropping the last field and joining again strips the suffix. *)
Lemma strip_suffix sep base sfx :
  PyStr.free_of sep sfx →
  PyStr.join (String sep "")
    (PyStr.but_last (PyStr.split sep (base +:+ String sep sfx))) = base.
Proof.
  intros Hfree. rewrite split_snoc by done.
  unfold PyStr.but_last. rewrite removelast_last. apply join_split.
Qed.

Lemma chomp_snoc s : Re.chomp (s +:+ String PyStr.newline "") = Some s.
Proof.
  induction s as [|a s IH]; [done|].
  rewrite app_cons.
  destruct (s +:+ String PyStr.newline "") as [|b t] eqn:E.
  - by destruct s.
  - change (Re.chomp (String a (String b t)))
      with (String a <$> Re.chomp (String b t)).
    by rewrite IH.
Qed.

Lemma chomp_Some s s' :
  Re.chomp s = Some s' → s = s' +:+ String PyStr.newline "".
Proof.
  revert s'. induction s as [|a s IH]; intros s'; [done|].
  destruct s as [|b s].
  - simpl. case_decide; [|done]. subst a. by intros [= <-].
  - change (Re.chomp (String a (String b s)))
      with (String a <$> Re.chomp (String b s)).
    intros H. apply fmap_Some in H as (t & Ht & ->).
    rewrite app_cons. f_equal. by apply IH.
Qed.

End strings.

(** * The matcher accepts the words of the expression *)

Section regex.

Lemma concat_cons x xs :
  String.concat "" (x :: xs) = x +:+ String.concat "" xs.
Proof. destruct xs; simpl; [by rewrite app_empty_r|done]. Qed.

Lemma app_eq_empty s t : s +:+ t = "" → s = "" ∧ t = "".
Proof. by destruct s. Qed.

Lemma app_eq_cons s t a u :
  s +:+ t = String a u →
  (s = "" ∧ t = String a u) ∨ (∃ s', s = String a s' ∧ u = s' +:+ t).
Proof.
  destruct s as [|b s]; [by left|].
  rewrite app_cons. intros [= -> <-]. right. eauto.
Qed.

Lemma nullable_lang r : Re.nullable r = true ↔ Re.lang r "".
Proof.
  induction r as [| |p|r1 IH1 r2 IH2|r1 IH1 r2 IH2|r IH]; simpl.
  - done.
  - done.
  - split; [done|]. by intros (a & _ & ?).
  - rewrite andb_true_iff, IH1, IH2. split.
    + intros [??]. by exists "", "".
    + intros (s1 & s2 & E & ? & ?). symmetry in E.
      apply app_eq_empty in E as [-> ->]. done.
  - by rewrite orb_true_iff, IH1, IH2.
  - split; [|done]. intros _. by exists [].
Qed.

Lemma deriv_lang r a s : Re.lang (Re.deriv a r) s ↔ Re.lang r (String a s).
Proof.
  revert s.
  induction r as [| |p|r1 IH1 r2 IH2|r1 IH1 r2 IH2|r IH]; intros s; simpl.
  - done.
  - done.
  - destruct (p a) eqn:Hp; simpl.
    + split; [intros ->; eauto|]. by intros (b & _ & [= _ ->]).
    + split; [done|]. intros (b & Hb & [= <- _]). congruence.
  - assert (Re.lang (Re.Cat (Re.deriv a r1) r2) s
            ↔ ∃ s1 s2, s = s1 +:+ s2 ∧ Re.lang r1 (String a s1) ∧ Re.lang r2 s2)
      as Hcat.
    { simpl. split; intros (s1 & s2 & ? & ? & ?);
        exists s1, s2; by rewrite ?IH1 in *. }
    destruct (Re.nullable r1) eqn:Hn.
    + change (Re.lang (Re.Cat (Re.deriv a r1) r2) s ∨ Re.lang (Re.deriv a r2) s
              ↔ ∃ s1 s2, String a s = s1 +:+ s2 ∧ Re.lang r1 s1 ∧ Re.lang r2 s2).
      rewrite Hcat, IH2. split.
      * intros [(s1 & s2 & -> & ? & ?)|?].
        -- by exists (String a s1), s2.
        -- exists "", (String a s). by rewrite <- nullable_lang.
      * intros (s1 & s2 & E & H1 & H2). symmetry in E.
        apply app_eq_cons in E as [[-> ->]|(s' & -> & ->)]; [by right|].
        left. eauto.
    + rewrite Hcat. split.
      * intros (s1 & s2 & -> & ? & ?). by exists (String a s1), s2.
      * intros (s1 & s2 & E & H1 & H2). symmetry in E.
        apply app_eq_cons in E as [[-> ->]|(s' & -> & ->)]; [|eauto].
        apply nullable_lang in H1. congruence.
  - by rewrite IH1, IH2.
  - split.
    + intros (s1 & s2 & -> & H1 & ws & -> & Hws).
      exists (String a s1 :: ws). rewrite concat_cons. split; [done|].
      constructor; [|done]. split; [done|]. by apply IH.
    + intros (ws & E & Hws). destruct Hws as [|w ws [Hne Hw] Hws]; [done|].
      rewrite concat_cons in E. destruct w as [|b w]; [done|].
      rewrite app_cons in E. injection E as <- ->.
      exists w, (String.concat "" ws). split; [done|].
      split; [by apply IH|]. by exists ws.
Qed.

Theorem accepts_lang r s : Re.accepts r s = true ↔ Re.lang r s.
Proof.
  revert r. induction s as [|a s IH]; intros r; simpl.
  - apply nullable_lang.
  - by rewrite IH, deriv_lang.
Qed.

(** Words of [.+]: not empty and without a newline. *)
Lemma lang_star_dot s :
  PyStr.free_of PyStr.newline s → Re.lang (Re.Star Re.dot) s.
Proof.
  induction s as [|a s IH]; simpl.
  - intros _. by exists [].
  - intros [Ha Hs]. destruct (IH Hs) as (ws & -> & Hws).
    exists (String a "" :: ws). rewrite concat_cons. split; [done|].
    constructor; [|done]. split; [done|]. exists a. split; [|done].
    by rewrite bool_decide_eq_false_2.
Qed.

Lemma lang_plus_dot s :
  s ≠ "" → PyStr.free_of PyStr.newline s → Re.lang (Re.plus Re.dot) s.
Proof.
  destruct s as [|a s]; [done|]. intros _ [Ha Hs].
  exists (String a ""), s. split; [done|]. split.
  - exists a. split; [|done]. simpl. by rewrite bool_decide_eq_false_2.
  - by apply lang_star_dot.
Qed.

End regex.

(** * The dated-suffix test *)

Section dated.

Lemma lang_cat r1 r2 s :
  Re.lang (Re.Cat r1 r2) s
  ↔ ∃ s1 s2, s = s1 +:+ s2 ∧ Re.lang r1 s1 ∧ Re.lang r2 s2.
Proof. reflexivity. Qed.

Lemma lang_lit a s : Re.lang (Re.lit a) s ↔ s = String a "".
Proof.
  simpl. split.
  - intros (c & Hc & ->). by apply bool_decide_eq_true in Hc as ->.
  - intros ->. exists a. by rewrite bool_decide_eq_true_2.
Qed.

Lemma lang_one_of a b s :
  Re.lang (Re.one_of a b) s ↔ ∃ c, (c = a ∨ c = b) ∧ s = String c "".
Proof.
  simpl. split; intros (c & Hc & ->); exists c; (split; [|done]).
  - apply orb_true_iff in Hc as [H|H]; apply bool_decide_eq_true in H; auto.
  - apply orb_true_iff. destruct Hc as [->| ->];
      [left|right]; by apply bool_decide_eq_true_2.
Qed.

Lemma lang_range lo hi s :
  Re.lang (Re.range lo hi) s
  ↔ ∃ c, (N_of_ascii lo ≤ N_of_ascii c ≤ N_of_ascii hi)%N ∧ s = String c "".
Proof.
  simpl. split; intros (c & Hc & ->); exists c; (split; [|done]).
  - apply andb_true_iff in Hc as [H1 H2]. by rewrite !N.leb_le in *.
  - apply andb_true_iff. by rewrite !N.leb_le.
Qed.

(** The words of the pattern between the anchors. *)
Lemma mmdd_pattern_lang s :
  Re.lang mmdd_pattern s ↔
  ∃ p m1 m2 d1 d2,
    Re.lang (Re.plus Re.dot) p ∧
    (m1 = "0"%char ∨ m1 = "1"%char) ∧ ModelRouter.digit m2 ∧
    (N_of_ascii "0" ≤ N_of_ascii d1 ≤ N_of_ascii "3")%N ∧
    ModelRouter.digit d2 ∧
    s = p +:+ String PyStr.hyphen
                (String m1 (String m2 (String d1 (String d2 "")))).
Proof.
  unfold mmdd_pattern. split.
  - intros H.
    apply lang_cat in H as (p & s1 & -> & Hp & H).
    apply lang_cat in H as (? & s2 & -> & ->%lang_lit & H).
    apply lang_cat in H as (? & s3 & -> & (m1 & Hm1 & ->)%lang_one_of & H).
    apply lang_cat in H as (? & s4 & -> & (m2 & Hm2 & ->)%lang_range & H).
    apply lang_cat in H as
        (? & ? & -> & (d1 & Hd1 & ->)%lang_range & (d2 & Hd2 & ->)%lang_range).
    by exists p, m1, m2, d1, d2.
  - intros (p & m1 & m2 & d1 & d2 & Hp & Hm1 & Hm2 & Hd1 & Hd2 & ->).
    apply lang_cat. exists p. eexists. split; [done|]. split; [done|].
    apply lang_cat. exists (String PyStr.hyphen ""). eexists.
    split; [done|]. split; [by apply lang_lit|].
    apply lang_cat. exists (String m1 ""). eexists.
    split; [done|]. split; [apply lang_one_of; eauto|].
    apply lang_cat. exists (String m2 ""). eexists.
    split; [done|]. split; [apply lang_range; eauto|].
    apply lang_cat. exists (String d1 ""), (String d2 "").
    split; [done|]. split; apply lang_range; eauto.
Qed.

Lemma digit_not_hyphen c :
  (N_of_ascii "0" ≤ N_of_ascii c)%N → c ≠ PyStr.hyphen.
Proof. intros H ->. vm_compute in H. by apply H. Qed.

Lemma four_free m1 m2 d1 d2 tail :
  (m1 = "0"%char ∨ m1 = "1"%char) → ModelRouter.digit m2 →
  (N_of_ascii "0" ≤ N_of_ascii d1 ≤ N_of_ascii "3")%N →
  ModelRouter.digit d2 → PyStr.free_of PyStr.hyphen tail →
  PyStr.free_of PyStr.hyphen
    (String m1 (String m2 (String d1 (String d2 tail)))).
Proof.
  intros Hm1 [Hm2 _] [Hd1 _] [Hd2 _] Htail. simpl.
  repeat split; auto using digit_not_hyphen.
  by destruct Hm1 as [->| ->].
Qed.

(** No chat-model name is empty or has a newline. *)
Lemma chat_models_plain :
  Forall (λ b, b ≠ "" ∧ PyStr.free_of PyStr.newline b) chat_models.
Proof. unfold chat_models. repeat constructor; done. Qed.

Lemma mmdd_free sfx :
  ModelRouter.mmdd sfx → PyStr.free_of PyStr.hyphen sfx.
Proof.
  intros (m1 & m2 & d1 & d2 & ? & ? & ? & ? & [->| ->]).
  - by apply four_free.
  - rewrite !app_cons, app_empty_l. by apply four_free.
Qed.

(** The test of the code and the wording of the specification agree. *)
Theorem dated_suffix_spec nm :
  dated_suffix nm = true ↔ ModelRouter.dated nm.
Proof.
  unfold dated_suffix, PyStr.in_tuple, Re.match_anchored.
  rewrite andb_true_iff, bool_decide_eq_true, orb_true_iff. split.
  - intros [Hbase [Hacc|Hacc]].
    + apply accepts_lang, mmdd_pattern_lang in Hacc
        as (p & m1 & m2 & d1 & d2 & Hp & ? & ? & ? & ? & ->).
      rewrite (strip_suffix PyStr.hyphen) in Hbase by by apply four_free.
      exists p. eexists. split; [done|]. split; [done|].
      exists m1, m2, d1, d2. by eauto 10.
    + destruct (Re.chomp nm) as [s'|] eqn:E; [|done].
      apply chomp_Some in E as ->.
      apply accepts_lang, mmdd_pattern_lang in Hacc
        as (p & m1 & m2 & d1 & d2 & Hp & ? & ? & ? & ? & ->).
      rewrite app_assoc', !app_cons, app_empty_l in Hbase.
      rewrite (strip_suffix PyStr.hyphen) in Hbase by by apply four_free.
      exists p. eexists. rewrite app_assoc', !app_cons, app_empty_l.
      split; [done|]. split; [done|].
      exists m1, m2, d1, d2. by eauto 10.
  - intros (base & sfx & -> & Hbase & Hsfx).
    split.
    { rewrite (strip_suffix PyStr.hyphen); [done|by apply mmdd_free]. }
    pose proof (proj1 (Forall_forall _ _) chat_models_plain base Hbase)
      as [Hne Hnl].
    destruct Hsfx as (m1 & m2 & d1 & d2 & ? & ? & ? & ? & [->| ->]).
    + left. apply accepts_lang, mmdd_pattern_lang.
      exists base, m1, m2, d1, d2. by auto 10 using lang_plus_dot.
    + right.
      assert (base +:+ String PyStr.hyphen
                (String m1 (String m2 (String d1 (String d2 "")))
                 +:+ String PyStr.newline "")
              = (base +:+ String PyStr.hyphen
                   (String m1 (String m2 (String d1 (String d2 "")))))
                +:+ String PyStr.newline "") as ->.
      { by rewrite app_assoc', !app_cons, app_empty_l. }
      rewrite chomp_snoc. apply accepts_lang, mmdd_pattern_lang.
      exists base, m1, m2, d1, d2. by auto 10 using lang_plus_dot.
Qed.

End dated.

(** * Routing *)

Section routing.

Lemma in_tuple_true x t : x ∈ t → PyStr.in_tuple x t = true.
Proof. apply bool_decide_eq_true_2. Qed.

Lemma in_tuple_false x t : x ∉ t → PyStr.in_tuple x t = false.
Proof. apply bool_decide_eq_false_2. Qed.

Lemma completion_models_named : "" ∉ completion_models.
Proof. by_compute. Qed.

Lemma chat_models_named : "" ∉ chat_models.
Proof. by_compute. Qed.

Lemma not_dated_empty : ¬ ModelRouter.dated "".
Proof. intros (base & sfx & E & _). by destruct base. Qed.

Lemma names_itself family nm :
  ∃ pre post, no_api_defined family nm = pre +:+ nm +:+ post.
Proof.
  exists ("No " +:+ family +:+ " API defined for '"),
         "' in generators/openai.py - please add one!".
  unfold no_api_defined. by rewrite !app_assoc'.
Qed.

(** Every outcome of [_load_client] on a named model. *)
Lemma load_client_named w self :
  name self ≠ "" →
  _load_client w self =
  let self1 := set_client (Some (its_client self)) self in
  if PyStr.in_tuple (name self) completion_models then
    (set_generator (Some (completions (its_client self))) self1, Return ())
  else if PyStr.in_tuple (name self) chat_models then
    (set_generator (Some (chat_completions (its_client self))) self1, Return ())
  else if dated_suffix (name self) then
    (set_generator (Some (completions (its_client self))) self1, Return ())
  else
    (self1, Raise (ValueError
       (no_api_defined (generator_family_name self) (name self)))).
Proof.
  intros Hnm. unfold _load_client. simpl. by rewrite decide_False.
Qed.

End routing.

(** Every instance with a name loads its client by the order of the
    chain: completion names, chat names, dated chat names, error. *)
Lemma load_client_in_order w self :
  name self ≠ "" → loads_in_order w self.
Proof.
  intros Hnm. unfold loads_in_order, resolves_to, unsupported.
  rewrite (load_client_named w self Hnm). cbv zeta.
  repeat split.
  - by rewrite in_tuple_true.
  - by rewrite in_tuple_true.
  - by rewrite in_tuple_true.
  - by rewrite in_tuple_false, in_tuple_true.
  - by rewrite in_tuple_false, in_tuple_true.
  - by rewrite in_tuple_false, in_tuple_true.
  - rewrite !in_tuple_false by done.
    by rewrite (proj2 (dated_suffix_spec _)).
  - rewrite !in_tuple_false by done.
    by rewrite (proj2 (dated_suffix_spec _)).
  - rewrite !in_tuple_false by done.
    by rewrite (proj2 (dated_suffix_spec _)).
  - rewrite !in_tuple_false by done.
    destruct (dated_suffix (name self)) eqn:E; [|done].
    by apply dated_suffix_spec in E.
  - apply names_itself.
Qed.

Section construction.

Lemma load_success_supported w self self' :
  _load_client w self = (self', Return ()) → generator_supported self' = true.
Proof.
  unfold _load_client.
  repeat case_match; intros [= <-]; unfold generator_supported; simpl;
    rewrite bool_decide_eq_true_2 by done; by rewrite ?orb_true_r.
Qed.

(** The check of [OpenAICompatible.__init__] after a successful load
    cannot fail. *)
Lemma init_unfold w nm cfg :
  __init__ w nm cfg =
  match _load_client w (unloaded nm cfg) with
  | (_, Raise e) => Raise e
  | (self, Return _) => Return (_clear_client self)
  end.
Proof.
  unfold __init__.
  destruct (_load_client w (unloaded nm cfg)) as [self [[]|e]] eqn:E; [|done].
  by rewrite (load_success_supported _ _ _ E).
Qed.

Lemma load_chat_member w self :
  name self ∉ completion_models → name self ∈ chat_models →
  _load_client w self
  = (set_generator (Some (chat_completions (its_client self)))
       (set_client (Some (its_client self)) self), Return ()).
Proof.
  intros H1 H2. rewrite load_client_named.
  - cbv zeta. by rewrite in_tuple_false, in_tuple_true.
  - intros E. rewrite E in H2. by apply chat_models_named.
Qed.

Lemma load_completion_member w self :
  name self ∈ completion_models →
  _load_client w self
  = (set_generator (Some (completions (its_client self)))
       (set_client (Some (its_client self)) self), Return ()).
Proof.
  intros H1. rewrite load_client_named.
  - cbv zeta. by rewrite in_tuple_true.
  - intros E. rewrite E in H1. by apply completion_models_named.
Qed.

End construction.

Lemma resolved_constructs w nm cfg v :
  resolves_to w (unloaded nm cfg) v → constructs_as w nm cfg v.
Proof.
  intros H. split; [|done]. destruct H as (Hret & _ & _).
  rewrite init_unfold.
  destruct (_load_client w (unloaded nm cfg)) as [self [[]|e]]; [eauto|done].
Qed.

Lemma unsupported_fails w nm cfg :
  unsupported w (unloaded nm cfg) → construction_unsupported w nm cfg.
Proof.
  intros H. split; [|done]. destruct H as [Hraise _].
  rewrite init_unfold.
  destruct (_load_client w (unloaded nm cfg)) as [self [[]|e]]; [done|].
  simpl in Hraise. by injection Hraise as ->.
Qed.

Lemma not_line_ended nm : Re.chomp nm = None → ¬ line_ended nm.
Proof. intros H [s ->]. by rewrite chomp_snoc in H. Qed.

(** Away from names that end in a newline, what the pattern of the code
    lets through is the group of four digits. *)
Lemma dated_snapshot_iff nm :
  ¬ line_ended nm → ModelRouter.dated nm ↔ ModelRouter.dated_snapshot nm.
Proof.
  intros Hend. split.
  - intros (base & sfx & -> & Hbase & m1 & m2 & d1 & d2 & ? & ? & ? & ? & Hsfx).
    destruct Hsfx as [->| ->].
    + exists base. eexists. split; [done|]. split; [done|].
      by exists m1, m2, d1, d2.
    + destruct Hend.
      exists (base +:+ String PyStr.hyphen
                (String m1 (String m2 (String d1 (String d2 ""))))).
      by rewrite app_assoc', !app_cons, app_empty_l.
  - intros (base & sfx & -> & Hbase & m1 & m2 & d1 & d2 & ? & ? & ? & ? & ->).
    exists base. eexists. split; [done|]. split; [done|].
    exists m1, m2, d1, d2. by eauto 10.
Qed.

Lemma not_dated_snapshot_empty : ¬ ModelRouter.dated_snapshot "".
Proof. intros (base & sfx & E & _). by destruct base. Qed.

(** C1, amended: for every model name that is not empty and does not end
    in a newline, construction decides in this order: a member of
    [completion_models] gets the completions resource; otherwise a member
    of [chat_models] gets the chat resource; otherwise a name whose
    trailing hyphenated suffix is four digits [[01][0-9][0-3][0-9]] and
    whose rest is a chat-model name gets the completions resource;
    otherwise construction fails with the [ValueError] "No OpenAI API
    defined for ..." whose message has the model name in it. *)
Theorem C1_routing_order w nm cfg :
  nm ≠ "" → ¬ line_ended nm →
  routes_in_order w nm cfg ∧
  (nm ∉ completion_models → nm ∉ chat_models →
   ¬ ModelRouter.dated_snapshot nm →
   __init__ w nm cfg = Raise (ValueError (no_api_defined "OpenAI" nm))).
Proof.
  intros Hnm Hend.
  destruct (load_client_in_order w (unloaded nm cfg) Hnm)
    as (H1 & H2 & H3 & H4).
  pose proof (dated_snapshot_iff nm Hend) as Hiff.
  assert (nm ∉ completion_models → nm ∉ chat_models →
          ¬ ModelRouter.dated_snapshot nm →
          construction_unsupported w nm cfg) as Hfail.
  { intros ?? Hnot. apply unsupported_fails, H4; [done|done|].
    intros Hd. by apply Hnot, Hiff. }
  split; [split; [|split; [|split]]|].
  - intros ?. by apply resolved_constructs, H1.
  - intros ??. by apply resolved_constructs, H2.
  - intros ?? Hd. apply resolved_constructs, H3; [done|done|by apply Hiff].
  - intros ?? Hnot. destruct (Hfail ltac:(done) ltac:(done) Hnot) as [Hraise [_ Hin]].
    by eexists.
  - intros ?? Hnot. by destruct (Hfail ltac:(done) ltac:(done) Hnot).
Qed.

Lemma C1_routing_order_witness :
  routes_in_order (quiet (λ _, Response [])) "gpt-4-0314" demo_cfg ∧
  ("gpt-4-0314" ∉ completion_models → "gpt-4-0314" ∉ chat_models →
   ¬ ModelRouter.dated_snapshot "gpt-4-0314" →
   __init__ (quiet (λ _, Response [])) "gpt-4-0314" demo_cfg
   = Raise (ValueError (no_api_defined "OpenAI" "gpt-4-0314"))).
Proof.
  apply (C1_routing_order _ "gpt-4-0314" demo_cfg).
  - discriminate.
  - apply not_line_ended. reflexivity.
Defined.

(** C1 as stated fails on the empty name: no rule of the chain applies to
    it, and construction goes through the guard that asks the provider for
    its models; when the provider refuses to list them, what construction
    raises is the provider's exception, not a [ValueError] naming the
    model. *)
Lemma C1_empty_name_counterexample :
  ¬ routes_in_order unlisted "" demo_cfg.
Proof.
  intros (_ & _ & _ & H).
  destruct (H completion_models_named chat_models_named
              not_dated_snapshot_empty) as (msg & H' & _).
  vm_compute in H'. discriminate H'.
Qed.

(** C2, amended: for the model name "gpt-4-0613" construction succeeds
    and the variant resolved is Chat, because the name is itself a member
    of [chat_models] and that test comes before the dated-suffix one; the
    constructed instance resolves to Chat again whenever it reloads its
    client. *)
Theorem C2_gpt_4_0613_is_chat w cfg :
  constructs_as w "gpt-4-0613" cfg ModelRouter.Chat ∧
  ∀ self, __init__ w "gpt-4-0613" cfg = Return self →
          ∀ w', resolves_to w' self ModelRouter.Chat.
Proof.
  assert ("gpt-4-0613" ∉ completion_models) as H1 by by_compute.
  assert ("gpt-4-0613" ∈ chat_models) as H2 by by_compute.
  split; [split|].
  - eexists. rewrite init_unfold, load_chat_member by done. reflexivity.
  - unfold resolves_to. by rewrite load_chat_member.
  - intros self. rewrite init_unfold, load_chat_member by done.
    intros [= <-] w'. unfold resolves_to. by rewrite load_chat_member.
Qed.

Lemma fresh_0613_constructed w :
  __init__ w "gpt-4-0613" demo_cfg = Return fresh_0613.
Proof. rewrite init_unfold, load_chat_member by by_compute. reflexivity. Qed.

Lemma C2_gpt_4_0613_is_chat_witness :
  resolves_to (quiet (λ _, Fault RateLimitError)) fresh_0613 ModelRouter.Chat.
Proof.
  refine (proj2 (C2_gpt_4_0613_is_chat (quiet (λ _, Response [])) demo_cfg)
            fresh_0613 _ (quiet (λ _, Fault RateLimitError))).
  apply fresh_0613_constructed.
Defined.

(** C2 as stated fails: the variant resolved for "gpt-4-0613" is not
    Completion. *)
Lemma C2_counterexample :
  ¬ constructs_as (quiet (λ _, Response [])) "gpt-4-0613" demo_cfg
      ModelRouter.Completion.
Proof. intros [_ (_ & _ & H)]. vm_compute in H. discriminate H. Qed.

(** * The client lifecycle *)

Section lifecycle.

Lemma load_client_route w self :
  _load_client w self =
  match route_of (name self) with
  | Some v => (loaded_as v self, Return ())
  | None => (set_client (Some (its_client self)) self,
             Raise (load_error w self))
  end.
Proof.
  unfold _load_client, route_of, load_error, loaded_as. simpl.
  by repeat case_match.
Qed.

Lemma client_after_load w self :
  client (_load_client w self).1 = Some (its_client self).
Proof. rewrite load_client_route. by destruct (route_of (name self)). Qed.

Lemma routable_route self :
  routable self ↔ is_Some (route_of (name self)).
Proof.
  split.
  - intros [self' H]. specialize (H (quiet (λ _, Response []))).
    rewrite load_client_route in H.
    by destruct (route_of (name self)).
  - intros [v Hv]. exists (loaded_as v self). intros w.
    by rewrite load_client_route, Hv.
Qed.

(** An attached instance is its own loaded form. *)
Lemma attached_loaded self v :
  route_of (name self) = Some v → attached self → self = loaded_as v self.
Proof.
  intros Hv H. specialize (H (quiet (λ _, Response []))).
  rewrite load_client_route, Hv in H. congruence.
Qed.

Lemma loaded_attached self v :
  route_of (name self) = Some v → attached (loaded_as v self).
Proof.
  intros Hv w. rewrite load_client_route.
  change (name (loaded_as v self)) with (name self). by rewrite Hv.
Qed.

Lemma clear_load w self :
  _clear_client (_load_client w self).1 = _clear_client self.
Proof. rewrite load_client_route. by destruct (route_of (name self)). Qed.

Lemma prepare_fst w self p n :
  (prepare w self p n).1
  = match client self with
    | None => (_load_client w self).1
    | Some _ => self
    end.
Proof.
  unfold prepare. destruct (client self); [done|].
  by destruct (_load_client w self) as [s [[]|e]].
Qed.

Lemma prepare_snd w self p n :
  (prepare w self p n).2
  = match client self with
    | None =>
        match (_load_client w self).2 with
        | Return _ => request_for (_load_client w self).1 p n
        | Raise e => Early (Raise e)
        end
    | Some _ => request_for self p n
    end.
Proof.
  unfold prepare. destruct (client self); [done|].
  by destruct (_load_client w self) as [s [[]|e]].
Qed.

Lemma clear_prepare w self p n :
  _clear_client (prepare w self p n).1 = _clear_client self.
Proof.
  rewrite prepare_fst. destruct (client self); [done|apply clear_load].
Qed.

Lemma call_once_fst p n self w :
  (_call_model_once p n self w).1.1 = (prepare w self p n).1.
Proof.
  unfold _call_model_once. by destruct (prepare w self p n) as [s [r|rq]].
Qed.

(** The body on an instance that is routed and either detached or
    attached: the loaded form, and the request shaped for the variant. *)
Lemma prepare_routed w self v p n :
  route_of (name self) = Some v → detached self ∨ attached self →
  prepare w self p n
  = (loaded_as v self, shaped v (its_client self) (create_args self n) p).
Proof.
  intros Hv Hst.
  assert (prepare w self p n = prepare w (loaded_as v self) p n) as ->.
  { destruct Hst as [[Hc Hg]|Hatt].
    - unfold prepare at 1. by rewrite Hc, load_client_route, Hv.
    - by rewrite <- (attached_loaded self v). }
  unfold prepare, request_for, shaped. simpl.
  destruct v; simpl; repeat case_decide; try done; by destruct p.
Qed.

Lemma consistent_clear self : consistent self → consistent (_clear_client self).
Proof.
  intros [Hr _]. split; [|by left].
  apply routable_route. by apply routable_route in Hr.
Qed.

Lemma consistent_load w self : consistent self → consistent (_load_client w self).1.
Proof.
  intros [Hr _]. apply routable_route in Hr as Hv. destruct Hv as [v Hv].
  rewrite load_client_route, Hv. simpl. split.
  - apply routable_route. change (name (loaded_as v self)) with (name self).
    by rewrite Hv.
  - right. by apply loaded_attached.
Qed.

Lemma consistent_prepare w self p n :
  consistent self → consistent (prepare w self p n).1.
Proof.
  intros H. rewrite prepare_fst. destruct (client self); [done|].
  by apply consistent_load.
Qed.

Lemma consistent_init w nm cfg self :
  __init__ w nm cfg = Return self → consistent self.
Proof.
  rewrite init_unfold, load_client_route.
  change (name (unloaded nm cfg)) with nm.
  destruct (route_of nm) as [v|] eqn:Hv; [|done].
  intros [= <-]. split; [|by left].
  apply routable_route. change (is_Some (route_of nm)). by rewrite Hv.
Qed.

(** Every instance a program can hold is routed, and is detached or
    attached to the client and resource of its route. *)
Theorem reachable_consistent self : reachable self → consistent self.
Proof.
  induction 1 as [w nm cfg self H| | | | |].
  - by eapply consistent_init.
  - by apply consistent_clear.
  - by apply consistent_load.
  - by apply consistent_clear.
  - by apply consistent_load.
  - rewrite call_once_fst. by apply consistent_prepare.
Qed.

End lifecycle.

(** C3, amended: [__getstate__] sets the client handle (and the
    generator) absent before the attributes are copied for serialization;
    [__setstate__] recreates the handle at once through [_load_client], so
    right after deserialization the handle is present; a handle that is
    absent is created by the next [_call_model], and one that is present is
    left as it is. *)
Theorem C3_client_lifecycle w self :
  (detached (__getstate__ self).1 ∧ detached (__getstate__ self).2) ∧
  client (__setstate__ w (__getstate__ self).2).1 = Some (its_client self) ∧
  (∀ p n, client (_call_model_once p n (_clear_client self) w).1.1
          = Some (its_client self)) ∧
  (∀ p n, client self ≠ None → (_call_model_once p n self w).1.1 = self).
Proof.
  split; [by split|]. split; [|split].
  - unfold __setstate__. by rewrite client_after_load.
  - intros p n. rewrite call_once_fst, prepare_fst. simpl.
    by rewrite client_after_load.
  - intros p n Hc. rewrite call_once_fst, prepare_fst.
    by destruct (client self).
Qed.

Lemma C3_client_lifecycle_witness :
  (_call_model_once (VStr "hi") (VInt 1) attached_gpt4
     (quiet (λ _, Response []))).1.1 = attached_gpt4.
Proof.
  destruct (C3_client_lifecycle (quiet (λ _, Response [])) attached_gpt4)
    as (_ & _ & _ & H).
  apply H. simpl. discriminate.
Defined.

Lemma fresh_gpt4_constructed w :
  __init__ w "gpt-4" demo_cfg = Return fresh_gpt4.
Proof. rewrite init_unfold, load_client_route. reflexivity. Qed.

(** C3 as stated fails: the instance built for "gpt-4", pickled and
    restored, has its client handle present right after [__setstate__]. *)
Lemma C3_counterexample :
  __init__ (quiet (λ _, Response [])) "gpt-4" demo_cfg = Return fresh_gpt4 ∧
  ¬ absent_after_restore (quiet (λ _, Response [])) fresh_gpt4.
Proof.
  split; [apply fresh_gpt4_constructed|].
  unfold absent_after_restore, __setstate__.
  rewrite client_after_load. discriminate.
Qed.

(** * Request assembly *)

Section assembly.

Lemma create_args_lookup self n k :
  create_args self n !! k
  = x ← (list_to_map (create_args_literal self n) : gmap string value) !! k;
    guard (is_not_None x ∧ k ∉ suppressed_params self);; Some x.
Proof. unfold create_args. by rewrite map_lookup_filter. Qed.

Lemma literal_keys_distinct self n :
  NoDup (create_args_literal self n).*1.
Proof. simpl. by_compute. Qed.

Lemma literal_lookup self n k v :
  (k, v) ∈ create_args_literal self n →
  (list_to_map (create_args_literal self n) : gmap string value) !! k = Some v.
Proof.
  intros H. apply elem_of_list_to_map; [apply literal_keys_distinct|done].
Qed.

Lemma literal_key_not_prompt self n k v :
  (k, v) ∈ create_args_literal self n → k ≠ "prompt" ∧ k ≠ "messages".
Proof.
  unfold create_args_literal. rewrite !elem_of_cons, elem_of_nil.
  intros H.
  split; intros ->; repeat (destruct H as [H|H]; [discriminate H|]); done.
Qed.

Lemma create_args_clear self n :
  create_args (_clear_client self) n = create_args self n.
Proof. reflexivity. Qed.

(** The keyword arguments of a request are the filtered dictionary,
    with at most the prompt under "prompt" or "messages" put in. *)
Lemma prepare_kwargs w self p n rq :
  (prepare w self p n).2 = Send rq →
  kwargs rq = create_args self n
  ∨ (∃ x, kwargs rq = <["prompt" := x]> (create_args self n))
  ∨ (∃ x, kwargs rq = <["messages" := x]> (create_args self n)).
Proof.
  assert (∀ s, _clear_client s = _clear_client self →
               create_args s n = create_args self n) as Hsame.
  { intros s Hs. by rewrite <- (create_args_clear s), Hs. }
  assert (∀ s, create_args s n = create_args self n →
               request_for s p n = Send rq →
               kwargs rq = create_args self n
               ∨ (∃ x, kwargs rq = <["prompt" := x]> (create_args self n))
               ∨ (∃ x, kwargs rq = <["messages" := x]> (create_args self n)))
    as Hreq.
  { intros s <-. unfold request_for.
    destruct (client s); [|done].
    destruct (generator s); repeat case_decide;
      destruct p; simpl; intros [= <-]; simpl; kwargs_shape. }
  rewrite prepare_snd. destruct (client self); [by apply Hreq|].
  destruct (_load_client w self).2; [|done].
  apply Hreq, Hsame, clear_load.
Qed.

Lemma suppress_consistent self S :
  consistent self → consistent (set_suppressed_params S self).
Proof.
  intros [Hr Hst]. apply routable_route in Hr as Hv. destruct Hv as [v Hv].
  split.
  - apply routable_route. change (is_Some (route_of (name self))). eauto.
  - destruct Hst as [[??]|Hatt]; [by left|right].
    rewrite (attached_loaded self v Hv Hatt).
    change (attached (loaded_as v (set_suppressed_params S self))).
    by apply loaded_attached.
Qed.

Lemma filter_suppress (m : gmap string value) (S : gset string) k :
  filter (λ kv, is_not_None kv.2 ∧ kv.1 ∉ S ∪ {[k]}) m
  = delete k (filter (λ kv, is_not_None kv.2 ∧ kv.1 ∉ S) m).
Proof.
  apply map_eq. intros i. apply option_eq. intros x.
  rewrite lookup_delete_Some, !map_lookup_filter_Some. simpl.
  rewrite not_elem_of_union, not_elem_of_singleton. intuition congruence.
Qed.

Lemma create_args_suppress self n k :
  create_args
    (set_suppressed_params (suppressed_params self ∪ {[k]}) self) n
  = delete k (create_args self n).
Proof.
  unfold create_args. cbn [suppressed_params set_suppressed_params].
  change (create_args_literal (set_suppressed_params ?S self) n)
    with (create_args_literal self n).
  generalize (list_to_map (create_args_literal self n) : gmap string value).
  intros m. apply filter_suppress.
Qed.

Lemma shaped_delete v c args p k rq :
  k ≠ "prompt" → k ≠ "messages" →
  shaped v c args p = Send rq →
  shaped v c (delete k args) p
  = Send {| target := target rq; kwargs := delete k (kwargs rq) |}.
Proof.
  intros H1 H2. unfold shaped.
  repeat case_match; intros; simplify_eq; simpl;
    by rewrite delete_insert_ne.
Qed.

End assembly.

(** C6: for each of the six sampling keys [k], the dictionary assembled
    with [k] added to [suppressed_params] is the one assembled without it
    with exactly [k] removed; every other key keeps its value, and the
    request that leaves [_call_model] differs in the same way. *)
Theorem C6_suppression_removes_key self n k :
  k ∈ sampling_keys →
  let self' := set_suppressed_params (suppressed_params self ∪ {[k]}) self in
  create_args self' n = delete k (create_args self n) ∧
  create_args self' n !! k = None ∧
  (∀ k', k' ≠ k → create_args self' n !! k' = create_args self n !! k') ∧
  (consistent self → ∀ w p rq,
     (prepare w self p n).2 = Send rq →
     (prepare w self' p n).2
     = Send {| target := target rq; kwargs := delete k (kwargs rq) |}).
Proof.
  intros Hk self'. subst self'. rewrite create_args_suppress.
  split; [done|]. split; [apply lookup_delete_eq|].
  split; [intros k' Hne; by apply lookup_delete_ne|].
  intros Hcons w p rq.
  pose proof (suppress_consistent self (suppressed_params self ∪ {[k]}) Hcons)
    as [_ Hst'].
  destruct Hcons as [Hr Hst]. apply routable_route in Hr as [v Hv].
  rewrite (prepare_routed w self v p n Hv Hst).
  rewrite (prepare_routed w
             (set_suppressed_params (suppressed_params self ∪ {[k]}) self)
             v p n Hv Hst').
  cbn [snd]. rewrite create_args_suppress.
  apply shaped_delete; intros ->; revert Hk; unfold sampling_keys;
    rewrite !elem_of_cons, elem_of_nil; intros H;
    repeat (destruct H as [H|H]; [discriminate H|]); done.
Qed.

Lemma C6_suppression_removes_key_witness :
  create_args
    (set_suppressed_params (suppressed_params fresh_gpt4 ∪ {["stop"]}) fresh_gpt4)
    (VInt 3)
  = delete "stop" (create_args fresh_gpt4 (VInt 3)).
Proof.
  apply (C6_suppression_removes_key fresh_gpt4 (VInt 3) "stop"). by_compute.
Defined.

(** C10: the filter runs over every key of the assembled dictionary;
    "model", "max_tokens" and "n" are entries of it and are treated as the
    sampling keys are: an entry whose value is [None] or whose key is in
    [suppressed_params] is in neither the filtered dictionary nor the
    request sent, and any other entry keeps its value. *)
Theorem C10_filter_covers_every_key self n :
  ("model", VStr (name self)) ∈ create_args_literal self n ∧
  ("max_tokens", max_tokens self) ∈ create_args_literal self n ∧
  ("n", n) ∈ create_args_literal self n ∧
  ∀ k v, (k, v) ∈ create_args_literal self n →
    (v = VNone ∨ k ∈ suppressed_params self →
     create_args self n !! k = None ∧
     ∀ w p rq, (prepare w self p n).2 = Send rq → kwargs rq !! k = None) ∧
    (v ≠ VNone → k ∉ suppressed_params self → create_args self n !! k = Some v).
Proof.
  split; [in_list|]. split; [in_list|]. split; [in_list|].
  intros k v Hin. pose proof (literal_lookup self n k v Hin) as Hlit.
  pose proof (literal_key_not_prompt self n k v Hin) as [Hp Hm].
  split.
  - intros Hdrop.
    assert (create_args self n !! k = None) as Hnone.
    { rewrite create_args_lookup, Hlit. simpl.
      rewrite option_guard_False; [done|].
      unfold is_not_None. intros [??]. by destruct Hdrop. }
    split; [done|]. intros w p rq Hrq.
    destruct (prepare_kwargs w self p n rq Hrq) as [->|[[x ->]|[x ->]]];
      by rewrite ?lookup_insert_ne.
  - intros Hv Hk. rewrite create_args_lookup, Hlit. simpl.
    by rewrite option_guard_True.
Qed.

Lemma C10_filter_covers_every_key_witness :
  create_args without_n (VInt 3) !! "n" = None ∧
  create_args fresh_gpt4 (VInt 3) !! "n" = Some (VInt 3) ∧
  create_args fresh_gpt4 (VInt 3) !! "model" = Some (VStr "gpt-4").
Proof.
  destruct (C10_filter_covers_every_key without_n (VInt 3))
    as (_ & _ & Hn & Hall).
  destruct (C10_filter_covers_every_key fresh_gpt4 (VInt 3))
    as (Hmodel' & _ & Hn' & Hall').
  split; [|split].
  - refine (proj1 (proj1 (Hall "n" (VInt 3) Hn) _)). right. by_compute.
  - refine (proj2 (Hall' "n" (VInt 3) Hn') _ _); [discriminate | by_compute].
  - refine (proj2 (Hall' "model" (VStr "gpt-4") Hmodel') _ _);
      [discriminate | by_compute].
Defined.

(** * The wait generator *)

Section fibo.
Variable M : Z.
Hypothesis M_pos : 0 < M.

Lemma fibo_waits_length k ab : length (Backoff.fibo_waits M k ab) = k.
Proof.
  revert ab. induction k as [|k IH]; intros [a b]; simpl; [done|].
  case_match; simpl; by rewrite IH.
Qed.

(** Every wait lies between the smaller of [a] and the cap, and the
    cap; the waits never decrease. *)
Lemma fibo_waits_sorted k a b :
  0 < a ≤ b →
  Forall (λ x, Z.min a M ≤ x ≤ M) (Backoff.fibo_waits M k (a, b))
  ∧ Sorted Z.le (Backoff.fibo_waits M k (a, b)).
Proof.
  revert a b. induction k as [|k IH]; intros a b Hab; simpl; [by split|].
  destruct (Z.ltb_spec a M) as [Hlt|Hge]; simpl.
  - destruct (IH b (a + b)) as [Hall Hs]; [lia|]. split.
    + constructor; [lia|].
      eapply Forall_impl; [exact Hall|]. simpl. intros x ?. lia.
    + constructor; [done|].
      destruct Hall as [|x l Hx _]; constructor. lia.
  - destruct (IH a b Hab) as [Hall Hs]. split.
    + constructor; [lia|done].
    + constructor; [done|].
      destruct Hall as [|x l Hx _]; constructor. lia.
Qed.

(** From the third on, a wait is the sum of the two before it, capped. *)
Lemma fibo_waits_sum k a b i x y z :
  0 < a → 0 < b →
  Backoff.fibo_waits M k (a, b) !! i = Some x →
  Backoff.fibo_waits M k (a, b) !! S i = Some y →
  Backoff.fibo_waits M k (a, b) !! S (S i) = Some z →
  z = Z.min (x + y) M.
Proof.
  revert k a b. induction i as [|i IH]; intros k a b Ha Hb.
  - destruct k as [|[|[|k]]]; simpl; ltb_cases; simpl; ltb_cases; simpl;
      ltb_cases; simpl; intros; simplify_eq; lia.
  - destruct k as [|k]; [done|]. simpl.
    destruct (Z.ltb_spec a M); simpl; apply IH; lia.
Qed.

End fibo.

(** * The decorated [_call_model] *)

Section retry.
Variables p n : value.

Lemma call_from_unfold fuel wait self w :
  _call_model_from (S fuel) wait p n self w =
  match _call_model_once p n self w with
  | (s', w', Return a) => Some (s', w', Return a)
  | (s', w', Raise e) =>
      if retried e then
        _call_model_from fuel (Backoff.fibo_next max_value wait).2 p n s'
          (sleep (Backoff.fibo_next max_value wait).1 w')
      else Some (s', w', Raise e)
  end.
Proof.
  unfold _call_model_from. simpl.
  destruct (_call_model_once p n self w) as [[s' w'] [a|e]]; [done|].
  destruct (retried e); [|done].
  by destruct (Backoff.fibo_next max_value wait).
Qed.

Lemma call_once_send self w s1 rq :
  prepare w self p n = (s1, Send rq) →
  _call_model_once p n self w
  = (s1, record_request rq w, conclude s1 (net w (length (sent w)))).
Proof. unfold _call_model_once. by intros ->. Qed.

Lemma call_once_early self w s1 r :
  prepare w self p n = (s1, Early r) → _call_model_once p n self w = (s1, w, r).
Proof. unfold _call_model_once. by intros ->. Qed.

(** Once the body has reached the network, it reaches it again with
    the same request, whatever the provider has done meanwhile. *)
Lemma prepare_again w self s1 rq :
  prepare w self p n = (s1, Send rq) →
  ∀ w', prepare w' s1 p n = (s1, Send rq).
Proof.
  intros H w'.
  assert (client s1 ≠ None ∧ request_for s1 p n = Send rq) as [Hc Hrq].
  { pose proof (prepare_fst w self p n) as H1.
    pose proof (prepare_snd w self p n) as H2.
    rewrite H in H1, H2. simpl in H1, H2.
    destruct (client self) eqn:Hc.
    - subst s1. by rewrite Hc.
    - subst s1. rewrite client_after_load.
      split; [done|]. by destruct (_load_client w self).2. }
  unfold prepare. destruct (client s1); [|done]. by rewrite Hrq.
Qed.

Lemma after_attempts_step k wait rq w :
  after_attempts (S k) (Backoff.fibo_next max_value wait).2 rq
    (sleep (Backoff.fibo_next max_value wait).1 (record_request rq w))
  = after_attempts (S (S k)) wait rq w.
Proof.
  unfold after_attempts, sleep, record_request. simpl. f_equal.
  - by rewrite <- app_assoc.
  - rewrite <- app_assoc. by destruct (Backoff.fibo_next max_value wait).
Qed.

(** [k] retried results and then a final one: the decorated call makes
    [k + 1] attempts with the same request, sleeps the first [k] waits
    of the generator and ends with the final result. *)
Lemma retry_then k extra wait self w s1 rq r :
  prepare w self p n = (s1, Send rq) →
  (∀ i, (i < k)%nat →
        retried_result (conclude s1 (net w (length (sent w) + i)))) →
  conclude s1 (net w (length (sent w) + k)) = r →
  final_result r →
  _call_model_from (S (k + extra)) wait p n self w
  = Some (s1, after_attempts (S k) wait rq w, r).
Proof.
  revert wait self w.
  induction k as [|k IH]; intros wait self w Hprep Hfaults Hlast Hfinal.
  - rewrite call_from_unfold, (call_once_send _ _ _ _ Hprep).
    rewrite Nat.add_0_r in Hlast. rewrite Hlast.
    assert (after_attempts 1 wait rq w = record_request rq w) as ->.
    { unfold after_attempts, record_request. simpl. by rewrite app_nil_r. }
    destruct r as [a|e]; [done|]. simpl in Hfinal. by rewrite Hfinal.
  - rewrite call_from_unfold, (call_once_send _ _ _ _ Hprep).
    destruct (Hfaults 0%nat) as (e & He & Hre); [lia|].
    rewrite Nat.add_0_r in He. rewrite He, Hre.
    rewrite <- after_attempts_step.
    apply IH; [by eapply prepare_again| | |done].
    + intros i Hi. simpl. rewrite length_app. simpl.
      replace (length (sent w) + 1 + i)%nat
        with (length (sent w) + S i)%nat by lia.
      apply Hfaults. lia.
    + simpl. rewrite length_app. simpl. rewrite <- Hlast. do 2 f_equal. lia.
Qed.

(** The configuration is the same after any number of attempts. *)
Lemma clear_call_from fuel wait self w s1 w1 r :
  _call_model_from fuel wait p n self w = Some (s1, w1, r) →
  _clear_client s1 = _clear_client self.
Proof.
  revert wait self w. induction fuel as [|fuel IH]; intros wait self w; [done|].
  rewrite call_from_unfold.
  pose proof (call_once_fst p n self w) as Hfst.
  pose proof (clear_prepare w self p n) as Hcl. rewrite <- Hfst in Hcl.
  destruct (_call_model_once p n self w) as [[s' w'] [a|e]]; simpl in *.
  - by intros [= <- _ _].
  - destruct (retried e).
    + intros H%IH. by rewrite H.
    + by intros [= <- _ _].
Qed.

End retry.

Lemma fresh_davinci_constructed w :
  __init__ w "davinci-002" demo_cfg = Return fresh_davinci.
Proof. rewrite init_unfold, load_client_route. reflexivity. Qed.

Lemma prepare_fresh_gpt4 w k :
  prepare w fresh_gpt4 (VStr "hi") (VInt k) = (attached_gpt4, Send (gpt4_request k)).
Proof.
  rewrite (prepare_routed w fresh_gpt4 ModelRouter.Chat); [done|done|by left].
Qed.

Lemma prepare_strict_babbage w :
  prepare w strict_babbage (VStr "hi") (VInt 1)
  = (loaded_as ModelRouter.Completion strict_babbage, Send babbage_request).
Proof.
  rewrite (prepare_routed w strict_babbage ModelRouter.Completion);
    [done|done|by left].
Qed.

(** C4: whenever the call of [create] raises the bad-request error, also
    after any number of retried attempts, the decorated [_call_model]
    returns the list with the single element [None], for every generation
    count of at least 1; the attempt is the last one (no wait and no
    request follow it) and nothing is raised. *)
Theorem C4_bad_request_single_null j extra wait self w p k s1 rq :
  1 ≤ k →
  prepare w self p (VInt k) = (s1, Send rq) →
  (∀ i, (i < j)%nat →
        retried_result (conclude s1 (net w (length (sent w) + i)))) →
  net w (length (sent w) + j) = Fault BadRequestError →
  _call_model_from (S (j + extra)) wait p (VInt k) self w
  = Some (s1, after_attempts (S j) wait rq w, Return (VList [VNone])).
Proof.
  intros _ Hprep Hfaults Hbad.
  apply (retry_then _ _ j extra wait self w s1 rq _ Hprep Hfaults); [|done].
  by rewrite Hbad.
Qed.

Lemma C4_bad_request_single_null_witness :
  _call_model_from 1 Backoff.fibo_init (VStr "hi") (VInt 10) fresh_gpt4
    (quiet (λ _, Fault BadRequestError))
  = Some (attached_gpt4,
          after_attempts 1 Backoff.fibo_init (gpt4_request 10)
            (quiet (λ _, Fault BadRequestError)),
          Return (VList [VNone])).
Proof.
  apply (C4_bad_request_single_null 0 0 Backoff.fibo_init fresh_gpt4
           (quiet (λ _, Fault BadRequestError)) (VStr "hi") 10
           attached_gpt4 (gpt4_request 10)).
  - lia.
  - apply prepare_fresh_gpt4.
  - intros i Hi. lia.
  - reflexivity.
Defined.

(** C5: every name of [completion_models] constructs, and on every
    instance of that name that a program can hold, [_call_model] with a
    prompt that is not a string returns the empty list: nothing is raised,
    nothing is sent and nothing is slept. *)
Theorem C5_completion_rejects_non_string nm cfg w0 :
  nm ∈ completion_models →
  (∃ self0, __init__ w0 nm cfg = Return self0 ∧ name self0 = nm) ∧
  ∀ self, reachable self → name self = nm →
    ∀ p n w fuel wait, (∀ s, p ≠ VStr s) →
      ∃ s1, _call_model_from (S fuel) wait p n self w
            = Some (s1, w, Return (VList [])).
Proof.
  intros Hnm. split.
  - eexists. rewrite init_unfold, load_completion_member by done. done.
  - intros self Hreach <- p n w fuel wait Hp.
    destruct (reachable_consistent self Hreach) as [_ Hst].
    assert (route_of (name self) = Some ModelRouter.Completion) as Hv.
    { unfold route_of. rewrite decide_False.
      - by rewrite in_tuple_true.
      - intros E. rewrite E in Hnm. by apply completion_models_named. }
    exists (loaded_as ModelRouter.Completion self).
    rewrite call_from_unfold.
    rewrite (call_once_early p n self w
               (loaded_as ModelRouter.Completion self) (Return (VList [])));
      [done|].
    rewrite (prepare_routed w self _ p n Hv Hst). f_equal.
    destruct p; try done. by destruct (Hp s).
Qed.

Lemma C5_completion_rejects_non_string_witness :
  ∃ s1, _call_model_from 1 Backoff.fibo_init (VList []) (VInt 1) fresh_davinci
          (quiet (λ _, Response []))
        = Some (s1, quiet (λ _, Response []), Return (VList [])).
Proof.
  assert ("davinci-002" ∈ completion_models) as H by by_compute.
  destruct (C5_completion_rejects_non_string "davinci-002" demo_cfg
              (quiet (λ _, Response [])) H) as [_ Hcall].
  apply Hcall.
  - apply (reach_init (quiet (λ _, Response [])) "davinci-002" demo_cfg).
    apply fresh_davinci_constructed.
  - reflexivity.
  - intros s. discriminate.
Defined.

(** C7: after [N] consecutive rate-limit errors of [create] followed by a
    response, the decorated [_call_model] has retried exactly [N] times
    ([N + 1] requests, [N] waits), the waits are the first [N] of the
    Fibonacci generator, each the capped sum of the two before it, never
    decreasing and none above 70, and the value extracted from the
    response is returned. *)
Theorem C7_rate_limited_then_success N fuel self w p n s1 rq cs v :
  prepare w self p n = (s1, Send rq) →
  (∀ i, (i < N)%nat → net w (length (sent w) + i) = Fault RateLimitError) →
  net w (length (sent w) + N) = Response cs →
  conclude s1 (Response cs) = Return v →
  (N < fuel)%nat →
  let waits := Backoff.fibo_waits 70 N Backoff.fibo_init in
  ∃ w', _call_model fuel p n self w = Some (s1, w', Return v) ∧
        sent w' = sent w ++ replicate (S N) rq ∧
        slept w' = slept w ++ waits ∧
        length waits = N ∧
        Sorted Z.le waits ∧
        Forall (λ x, 1 ≤ x ≤ 70) waits ∧
        ∀ i x y z, waits !! i = Some x → waits !! S i = Some y →
                   waits !! S (S i) = Some z → z = Z.min (x + y) 70.
Proof.
  intros Hprep Hfaults Hresp Hv Hfuel waits.
  exists (after_attempts (S N) Backoff.fibo_init rq w).
  split; [|split; [done|split; [done|]]].
  - replace fuel with (S (N + (fuel - S N)))%nat by lia.
    apply (retry_then _ _ N _ Backoff.fibo_init self w s1 rq _ Hprep);
      [|by rewrite Hresp|done].
    intros i Hi. rewrite (Hfaults i Hi). by exists RateLimitError.
  - split; [apply fibo_waits_length|].
    destruct (fibo_waits_sorted 70 N 1 1) as [Hall Hs]; [lia|].
    split; [done|]. split.
    + eapply Forall_impl; [exact Hall|]. simpl. intros x ?. lia.
    + intros i x y z. by apply fibo_waits_sum.
Qed.

Lemma C7_rate_limited_then_success_witness :
  ∃ w', _call_model 4 (VStr "hi") (VInt 1) fresh_gpt4
          (quiet (rate_limited_then 3 [MessageChoice (Some "ok")]))
        = Some (attached_gpt4, w', Return (VList [VStr "ok"])) ∧
        slept w' = [1; 1; 2].
Proof.
  destruct (C7_rate_limited_then_success 3 4 fresh_gpt4
              (quiet (rate_limited_then 3 [MessageChoice (Some "ok")]))
              (VStr "hi") (VInt 1) attached_gpt4 (gpt4_request 1)
              [MessageChoice (Some "ok")] (VList [VStr "ok"]))
    as (w' & Hrun & _ & Hslept & _).
  - apply prepare_fresh_gpt4.
  - intros [|[|[|i]]] Hi; [reflexivity..|lia].
  - reflexivity.
  - reflexivity.
  - lia.
  - exists w'. split; [exact Hrun|exact Hslept].
Defined.

(** C8: a JSON decode error of [create] becomes an exception that the
    decorator retries if and only if [retry_json] is set: with the flag
    set the call waits and runs the body again; with the flag unset the
    decode error reaches the caller from the first attempt, without any
    wait. *)
Theorem C8_decode_error_retry_flag fuel wait self w p n s1 rq :
  prepare w self p n = (s1, Send rq) →
  net w (length (sent w)) = Fault JSONDecodeError →
  (retried_result (_call_model_once p n self w).2 ↔ retry_json self = true) ∧
  (retry_json self = true →
   _call_model_from (S fuel) wait p n self w
   = _call_model_from fuel (Backoff.fibo_next max_value wait).2 p n s1
       (sleep (Backoff.fibo_next max_value wait).1 (record_request rq w))) ∧
  (retry_json self = false →
   _call_model_from (S fuel) wait p n self w
   = Some (s1, record_request rq w, Raise JSONDecodeError)).
Proof.
  intros Hprep Hnet.
  assert (retry_json s1 = retry_json self) as Hflag.
  { pose proof (clear_prepare w self p n) as H. rewrite Hprep in H.
    by apply (f_equal retry_json) in H. }
  rewrite call_from_unfold, (call_once_send p n self w s1 rq Hprep), Hnet.
  simpl. rewrite Hflag.
  destruct (retry_json self); simpl.
  - split; [|by split]. split; [done|]. intros _. by eexists.
  - split; [|by split]. split; [|done]. by intros (e & [= <-] & ?).
Qed.

Lemma C8_decode_error_retry_flag_witness :
  _call_model_from 1 Backoff.fibo_init (VStr "hi") (VInt 1) strict_babbage
    (quiet (λ _, Fault JSONDecodeError))
  = Some (loaded_as ModelRouter.Completion strict_babbage,
          record_request babbage_request (quiet (λ _, Fault JSONDecodeError)),
          Raise JSONDecodeError).
Proof.
  destruct (C8_decode_error_retry_flag 0 Backoff.fibo_init strict_babbage
              (quiet (λ _, Fault JSONDecodeError)) (VStr "hi") (VInt 1)
              (loaded_as ModelRouter.Completion strict_babbage) babbage_request)
    as (_ & _ & H).
  - apply prepare_strict_babbage.
  - reflexivity.
  - apply H. reflexivity.
Defined.

(** C9: after a [_call_model] has run, clearing the client and loading
    it again (or leaving that to the next [_call_model]) makes the body
    prepare, for the same prompt and generation count, the very request it
    prepared before the release: the same target and the same keyword
    arguments. *)
Theorem C9_release_acquire_same_request self p n :
  reachable self →
  ∀ fuel w s1 w1 r,
    _call_model fuel p n self w = Some (s1, w1, r) →
    ∀ w2,
      (_load_client w2 (_clear_client s1)).2 = Return () ∧
      (prepare w2 (_load_client w2 (_clear_client s1)).1 p n).2
      = (prepare w self p n).2 ∧
      (prepare w2 (_clear_client s1) p n).2 = (prepare w self p n).2.
Proof.
  intros Hreach fuel w s1 w1 r Hrun w2.
  destruct (reachable_consistent self Hreach) as [Hr Hst].
  apply routable_route in Hr as [v Hv].
  rewrite (clear_call_from p n fuel _ self w s1 w1 r Hrun).
  rewrite (prepare_routed w self v p n Hv Hst).
  rewrite load_client_route.
  change (name (_clear_client self)) with (name self). rewrite Hv.
  cbn [fst snd]. split; [done|]. split.
  - rewrite (prepare_routed w2 (loaded_as v (_clear_client self)) v p n);
      [done|done|]. right. by apply loaded_attached.
  - rewrite (prepare_routed w2 (_clear_client self) v p n);
      [done|done|by left].
Qed.

Lemma C9_release_acquire_same_request_witness :
  (prepare (quiet (λ _, Response []))
     (_load_client (quiet (λ _, Response [])) (_clear_client attached_gpt4)).1
     (VStr "hi") (VInt 1)).2
  = (prepare (quiet (λ _, Response [MessageChoice (Some "ok")]))
       fresh_gpt4 (VStr "hi") (VInt 1)).2.
Proof.
  refine (proj1 (proj2 (C9_release_acquire_same_request fresh_gpt4
                          (VStr "hi") (VInt 1) _ 1
                          (quiet (λ _, Response [MessageChoice (Some "ok")]))
                          attached_gpt4
                          (record_request (gpt4_request 1)
                             (quiet (λ _, Response [MessageChoice (Some "ok")])))
                          (Return (VList [VStr "ok"])) _
                          (quiet (λ _, Response []))))).
  - apply (reach_init (quiet (λ _, Response [])) "gpt-4" demo_cfg).
    apply fresh_gpt4_constructed.
  - unfold _call_model. rewrite call_from_unfold.
    by rewrite (call_once_send _ _ _ _ _ _ (prepare_fresh_gpt4 _ 1)).
Defined.

(** * Further properties of the code *)

Section shapes.

Lemma chat_not_completion nm : nm ∈ chat_models → nm ∉ completion_models.
Proof.
  assert (Forall (λ x, x ∉ completion_models) chat_models) as H.
  { unfold chat_models. repeat constructor; by_compute. }
  intros Hin. by apply (proj1 (Forall_forall _ _) H).
Qed.

Lemma route_chat nm : nm ∈ chat_models → route_of nm = Some ModelRouter.Chat.
Proof.
  intros Hin. unfold route_of. rewrite decide_False.
  - rewrite in_tuple_false by by apply chat_not_completion.
    by rewrite in_tuple_true.
  - intros ->. by apply chat_models_named.
Qed.

Lemma route_completion_shaped nm :
  completion_shaped nm → route_of nm = Some ModelRouter.Completion.
Proof.
  intros [Hin|(H1 & H2 & Hd)]; unfold route_of.
  - rewrite decide_False; [by rewrite in_tuple_true|].
    intros ->. by apply completion_models_named.
  - rewrite decide_False; [by rewrite !in_tuple_false, Hd|].
    intros ->. vm_compute in Hd. discriminate Hd.
Qed.

Lemma create_args_entry self n k v :
  create_args self n !! k = Some v →
  (k, v) ∈ create_args_literal self n ∧ v ≠ VNone ∧ k ∉ suppressed_params self.
Proof.
  unfold create_args. rewrite map_lookup_filter_Some. simpl.
  intros (Hl & Hv & Hk). split; [|done].
  by apply elem_of_list_to_map_2.
Qed.

Lemma create_args_no_prompt self n :
  create_args self n !! "prompt" = None ∧ create_args self n !! "messages" = None.
Proof.
  split.
  - destruct (create_args self n !! "prompt") as [v|] eqn:E; [|done].
    apply create_args_entry in E as [Hin _].
    by destruct (literal_key_not_prompt _ _ _ _ Hin).
  - destruct (create_args self n !! "messages") as [v|] eqn:E; [|done].
    apply create_args_entry in E as [Hin _].
    by destruct (literal_key_not_prompt _ _ _ _ Hin).
Qed.

Lemma reachable_prepare w self v p n :
  reachable self → route_of (name self) = Some v →
  prepare w self p n
  = (loaded_as v self, shaped v (its_client self) (create_args self n) p).
Proof.
  intros Hreach Hv. apply prepare_routed; [done|].
  by destruct (reachable_consistent self Hreach).
Qed.

End shapes.

(** X1: on an instance of a chat-model name, a string prompt leaves as
    the message list with the single entry of role "user" and the string
    as content, to [client.chat.completions]; no "prompt" key is sent and
    the other keys are the filtered dictionary. *)
Theorem X1_chat_wraps_string self s n w :
  reachable self → name self ∈ chat_models →
  ∃ rq, prepare w self (VStr s) n = (loaded_as ModelRouter.Chat self, Send rq) ∧
        target rq = chat_completions (its_client self) ∧
        kwargs rq !! "messages" = Some (single_user_message s) ∧
        kwargs rq !! "prompt" = None ∧
        ∀ k, k ≠ "messages" → kwargs rq !! k = create_args self n !! k.
Proof.
  intros Hreach Hin. eexists.
  rewrite (reachable_prepare w self ModelRouter.Chat) by by auto using route_chat.
  split; [reflexivity|]. simpl. split; [done|].
  split; [by rewrite lookup_insert_eq|].
  split.
  - rewrite lookup_insert_ne by done. apply create_args_no_prompt.
  - intros k Hk. by rewrite lookup_insert_ne.
Qed.

Lemma X1_chat_wraps_string_witness :
  ∃ rq, prepare (quiet (λ _, Response [])) fresh_gpt4 (VStr "hi") (VInt 1)
        = (loaded_as ModelRouter.Chat fresh_gpt4, Send rq) ∧
        kwargs rq !! "messages" = Some (single_user_message "hi").
Proof.
  destruct (X1_chat_wraps_string fresh_gpt4 "hi" (VInt 1)
              (quiet (λ _, Response []))) as (rq & H1 & _ & H2 & _).
  - apply (reach_init (quiet (λ _, Response [])) "gpt-4" demo_cfg).
    apply fresh_gpt4_constructed.
  - by_compute.
  - exists rq. split; [exact H1|exact H2].
Defined.

(** X2: on an instance of a chat-model name, a list prompt is sent under
    "messages" as it is, whatever its elements are (also the empty list);
    a prompt that is neither a string nor a list makes [_call_model]
    return the empty list without a request, a wait or an exception. *)
Theorem X2_chat_list_or_nothing self p n w :
  reachable self → name self ∈ chat_models →
  (∀ l, p = VList l →
        (prepare w self p n).2
        = Send {| target := chat_completions (its_client self);
                  kwargs := <["messages" := VList l]> (create_args self n) |}) ∧
  ((∀ s, p ≠ VStr s) → (∀ l, p ≠ VList l) →
   ∀ fuel wait,
     _call_model_from (S fuel) wait p n self w
     = Some (loaded_as ModelRouter.Chat self, w, Return (VList []))).
Proof.
  intros Hreach Hin.
  pose proof (reachable_prepare w self ModelRouter.Chat p n Hreach
                (route_chat _ Hin)) as Hprep.
  split.
  - intros l ->. by rewrite Hprep.
  - intros Hs Hl fuel wait. rewrite call_from_unfold.
    rewrite (call_once_early p n self w
               (loaded_as ModelRouter.Chat self) (Return (VList [])));
      [done|].
    rewrite Hprep. f_equal.
    destruct p; try done; [by destruct (Hs s)|by destruct (Hl l)].
Qed.

Lemma X2_chat_list_or_nothing_witness :
  _call_model_from 1 Backoff.fibo_init VNone (VInt 1) fresh_gpt4
    (quiet (λ _, Response []))
  = Some (loaded_as ModelRouter.Chat fresh_gpt4, quiet (λ _, Response []),
          Return (VList [])).
Proof.
  refine (proj2 (X2_chat_list_or_nothing fresh_gpt4 VNone (VInt 1)
                   (quiet (λ _, Response [])) _ _) _ _ 0%nat Backoff.fibo_init).
  - apply (reach_init (quiet (λ _, Response [])) "gpt-4" demo_cfg).
    apply fresh_gpt4_constructed.
  - by_compute.
  - intros s. discriminate.
  - intros l. discriminate.
Defined.

(** X3: on an instance whose name goes to [client.completions] (a
    completion-model name, or a name outside both tables that passes the
    dated-suffix test), a string prompt is sent under "prompt" and no
    "messages" key is sent; a list of messages is not sent at all: the
    call returns the empty list. *)
Theorem X3_completion_prompt_key self n w :
  reachable self → completion_shaped (name self) →
  (∀ s, ∃ rq,
     prepare w self (VStr s) n = (loaded_as ModelRouter.Completion self, Send rq) ∧
     target rq = completions (its_client self) ∧
     kwargs rq !! "prompt" = Some (VStr s) ∧
     kwargs rq !! "messages" = None ∧
     ∀ k, k ≠ "prompt" → kwargs rq !! k = create_args self n !! k) ∧
  (∀ l fuel wait,
     _call_model_from (S fuel) wait (VList l) n self w
     = Some (loaded_as ModelRouter.Completion self, w, Return (VList []))).
Proof.
  intros Hreach Hnm.
  pose proof (route_completion_shaped _ Hnm) as Hv.
  split.
  - intros s. eexists.
    rewrite (reachable_prepare w self ModelRouter.Completion) by done.
    split; [reflexivity|]. simpl. split; [done|].
    split; [by rewrite lookup_insert_eq|].
    split.
    + rewrite lookup_insert_ne by done. apply create_args_no_prompt.
    + intros k Hk. by rewrite lookup_insert_ne.
  - intros l fuel wait. rewrite call_from_unfold.
    rewrite (call_once_early (VList l) n self w
               (loaded_as ModelRouter.Completion self) (Return (VList [])));
      [done|].
    by rewrite (reachable_prepare w self ModelRouter.Completion).
Qed.

Lemma fresh_0314_constructed w :
  __init__ w "gpt-4-0314" demo_cfg = Return fresh_0314.
Proof.
  rewrite init_unfold, load_client_route.
  assert (route_of (name (unloaded "gpt-4-0314" demo_cfg))
          = Some ModelRouter.Completion) as -> by (vm_compute; reflexivity).
  reflexivity.
Qed.

Lemma X3_completion_prompt_key_witness :
  _call_model_from 1 Backoff.fibo_init
    (VList [VDict [("role", VStr "user"); ("content", VStr "hi")]]) (VInt 1)
    fresh_0314 (quiet (λ _, Response []))
  = Some (loaded_as ModelRouter.Completion fresh_0314,
          quiet (λ _, Response []), Return (VList [])).
Proof.
  refine (proj2 (X3_completion_prompt_key fresh_0314 (VInt 1)
                   (quiet (λ _, Response [])) _ _) _ 0%nat Backoff.fibo_init).
  - apply (reach_init (quiet (λ _, Response [])) "gpt-4-0314" demo_cfg).
    apply fresh_0314_constructed.
  - right. split; [by_compute|split; [by_compute|vm_compute; reflexivity]].
Defined.

Section requests.

Lemma literal_keys self n : (create_args_literal self n).*1 = assembled_keys.
Proof. reflexivity. Qed.

Lemma create_args_key self n k v :
  create_args self n !! k = Some v → k ∈ assembled_keys.
Proof.
  intros [Hin _]%create_args_entry. rewrite <- (literal_keys self n).
  by apply (list_elem_of_fmap_2 fst) in Hin.
Qed.

(** What [request_for] puts into a request beside the filtered
    dictionary: nothing, a string under "prompt", or a string turned
    message list or a list under "messages". *)
Lemma request_for_kwargs self p n rq :
  request_for self p n = Send rq →
  kwargs rq = create_args self n
  ∨ (∃ x, x ≠ VNone ∧ kwargs rq = <["prompt" := x]> (create_args self n))
  ∨ (∃ x, x ≠ VNone ∧ kwargs rq = <["messages" := x]> (create_args self n)).
Proof.
  unfold request_for. destruct (client self); [|done].
  destruct (generator self); repeat case_decide;
    destruct p; simpl; intros [= <-]; simpl;
    first [ by left
          | right; left; eexists; split; [|reflexivity]; discriminate
          | right; right; eexists; split; [|reflexivity]; discriminate ].
Qed.

Lemma prepare_request_for w self p n rq :
  (prepare w self p n).2 = Send rq →
  ∃ s, _clear_client s = _clear_client self ∧ request_for s p n = Send rq.
Proof.
  rewrite prepare_snd. destruct (client self).
  - intros H. by exists self.
  - destruct (_load_client w self).2 eqn:E; [|done].
    intros H. exists (_load_client w self).1. split; [apply clear_load|done].
Qed.

Lemma texts_of ts : texts (TextChoice <$> ts) = Return (VStr <$> ts).
Proof.
  induction ts as [|t ts IH]; [done|].
  rewrite !fmap_cons. cbn [texts]. by rewrite IH.
Qed.

Lemma contents_of ms :
  contents (MessageChoice <$> ms) = Return (from_option VStr VNone <$> ms).
Proof.
  induction ms as [|m ms IH]; [done|].
  rewrite !fmap_cons. cbn [contents]. by rewrite IH.
Qed.

End requests.

(** X4: whatever the instance, a request that leaves [_call_model]
    carries no [None] value, and each of its keys is "prompt" or
    "messages" or one of the nine assembled keys that is not in
    [suppressed_params]. *)
Theorem X4_request_well_formed w self p n rq :
  (prepare w self p n).2 = Send rq →
  ∀ k v, kwargs rq !! k = Some v →
    v ≠ VNone ∧
    (k = "prompt" ∨ k = "messages"
     ∨ (k ∈ assembled_keys ∧ k ∉ suppressed_params self)).
Proof.
  intros (s & Hs & Hrq)%prepare_request_for k v.
  assert (create_args s n = create_args self n) as Hargs
    by (by rewrite <- (create_args_clear s), Hs).
  assert (∀ k v, create_args self n !! k = Some v →
                 v ≠ VNone ∧ k ∈ assembled_keys ∧ k ∉ suppressed_params self)
    as Hentry.
  { intros k' v' H. pose proof (create_args_key _ _ _ _ H) as Hkey.
    apply create_args_entry in H as (_ & Hv & Hk).
    split; [exact Hv|]. split; [exact Hkey|exact Hk]. }
  destruct (request_for_kwargs s p n rq Hrq)
    as [->|[(x & Hx & ->)|(x & Hx & ->)]]; rewrite Hargs.
  - intros H. destruct (Hentry k v H) as (? & ? & ?). auto.
  - destruct (decide (k = "prompt")) as [->|Hne].
    + rewrite lookup_insert_eq. intros [= <-]. auto.
    + rewrite lookup_insert_ne by done.
      intros H. destruct (Hentry k v H) as (? & ? & ?). auto.
  - destruct (decide (k = "messages")) as [->|Hne].
    + rewrite lookup_insert_eq. intros [= <-]. auto.
    + rewrite lookup_insert_ne by done.
      intros H. destruct (Hentry k v H) as (? & ? & ?). auto.
Qed.

Lemma X4_request_well_formed_witness :
  VStr "gpt-4" ≠ VNone ∧
  ("model" = "prompt" ∨ "model" = "messages"
   ∨ ("model" ∈ assembled_keys ∧ "model" ∉ suppressed_params fresh_gpt4)).
Proof.
  apply (X4_request_well_formed (quiet (λ _, Response [])) fresh_gpt4
           (VStr "hi") (VInt 1) (gpt4_request 1)).
  - by rewrite prepare_fresh_gpt4.
  - vm_compute. reflexivity.
Defined.

(** X5: putting into [suppressed_params] a key that is not one of the
    nine assembled keys changes nothing; in particular "prompt" and
    "messages" cannot be suppressed, since the prompt is put in after
    the filter. *)
Theorem X5_only_assembled_keys_suppress self n k :
  k ∉ assembled_keys →
  let self' := set_suppressed_params (suppressed_params self ∪ {[k]}) self in
  create_args self' n = create_args self n ∧
  (consistent self → ∀ w p, (prepare w self' p n).2 = (prepare w self p n).2).
Proof.
  intros Hk self'. subst self'.
  assert (create_args
            (set_suppressed_params (suppressed_params self ∪ {[k]}) self) n
          = create_args self n) as Hsame.
  { rewrite create_args_suppress. apply delete_id.
    destruct (create_args self n !! k) as [v|] eqn:E; [|done].
    by apply create_args_key in E. }
  split; [done|]. intros Hcons w p.
  pose proof (suppress_consistent self (suppressed_params self ∪ {[k]}) Hcons)
    as [_ Hst'].
  destruct Hcons as [Hr Hst]. apply routable_route in Hr as [v Hv].
  rewrite (prepare_routed w self v p n Hv Hst).
  rewrite (prepare_routed w
             (set_suppressed_params (suppressed_params self ∪ {[k]}) self)
             v p n Hv Hst').
  cbn [snd]. by rewrite Hsame.
Qed.

Lemma X5_only_assembled_keys_suppress_witness :
  create_args without_prompt (VInt 1) = create_args fresh_gpt4 (VInt 1).
Proof.
  refine (proj1 (X5_only_assembled_keys_suppress fresh_gpt4 (VInt 1) "prompt" _)).
  by_compute.
Defined.

(** X6: on an instance whose name goes to [client.completions], when
    [create] answers, [_call_model] returns the [text] of every choice of
    the response, in the order of the response: as many results as the
    provider returned choices, whatever count was asked for. *)
Theorem X6_completion_returns_texts self s n w ts fuel wait :
  reachable self → completion_shaped (name self) →
  net w (length (sent w)) = Response (TextChoice <$> ts) →
  ∃ rq, _call_model_from (S fuel) wait (VStr s) n self w
        = Some (loaded_as ModelRouter.Completion self, record_request rq w,
                Return (VList (VStr <$> ts))).
Proof.
  intros Hreach Hnm Hnet.
  pose proof (route_completion_shaped _ Hnm) as Hv.
  pose proof (reachable_prepare w self _ (VStr s) n Hreach Hv) as Hprep.
  eexists. rewrite call_from_unfold.
  rewrite (call_once_send _ _ _ _ _ _ Hprep), Hnet. simpl.
  rewrite decide_True by done. by rewrite texts_of.
Qed.

Lemma X6_completion_returns_texts_witness :
  ∃ rq, _call_model_from 1 Backoff.fibo_init (VStr "hi") (VInt 1) fresh_davinci
          (quiet (λ _, Response (TextChoice <$> ["a"; "b"])))
        = Some (loaded_as ModelRouter.Completion fresh_davinci,
                record_request rq (quiet (λ _, Response (TextChoice <$> ["a"; "b"]))),
                Return (VList (VStr <$> ["a"; "b"]))).
Proof.
  apply (X6_completion_returns_texts fresh_davinci "hi" (VInt 1)
           (quiet (λ _, Response (TextChoice <$> ["a"; "b"]))) ["a"; "b"]
           0%nat Backoff.fibo_init).
  - apply (reach_init (quiet (λ _, Response [])) "davinci-002" demo_cfg).
    apply fresh_davinci_constructed.
  - left. by_compute.
  - reflexivity.
Defined.

(** X7: on an instance of a chat-model name, for a string prompt and
    for a list prompt alike, when [create] answers, [_call_model] returns
    the [message.content] of every choice of the response, in the order of
    the response, a missing content as [None]. *)
Theorem X7_chat_returns_contents self p n w ms fuel wait :
  reachable self → name self ∈ chat_models →
  (∃ s, p = VStr s) ∨ (∃ l, p = VList l) →
  net w (length (sent w)) = Response (MessageChoice <$> ms) →
  ∃ rq, _call_model_from (S fuel) wait p n self w
        = Some (loaded_as ModelRouter.Chat self, record_request rq w,
                Return (VList (from_option VStr VNone <$> ms))).
Proof.
  intros Hreach Hnm Hp Hnet.
  pose proof (reachable_prepare w self _ p n Hreach (route_chat _ Hnm))
    as Hprep.
  assert (∃ rq, prepare w self p n = (loaded_as ModelRouter.Chat self, Send rq))
    as [rq Hsend].
  { rewrite Hprep. destruct Hp as [[s ->]|[l ->]]; by eexists. }
  exists rq. rewrite call_from_unfold.
  rewrite (call_once_send _ _ _ _ _ _ Hsend), Hnet. simpl.
  rewrite decide_True by done. by rewrite contents_of.
Qed.

Lemma X7_chat_returns_contents_witness :
  ∃ rq, _call_model_from 1 Backoff.fibo_init
          (VList [VDict [("role", VStr "user"); ("content", VStr "hi")]])
          (VInt 5) fresh_gpt4
          (quiet (λ _, Response (MessageChoice <$> [Some "a"; None])))
        = Some (loaded_as ModelRouter.Chat fresh_gpt4,
                record_request rq
                  (quiet (λ _, Response (MessageChoice <$> [Some "a"; None]))),
                Return (VList (from_option VStr VNone <$> [Some "a"; None]))).
Proof.
  apply (X7_chat_returns_contents fresh_gpt4
           (VList [VDict [("role", VStr "user"); ("content", VStr "hi")]])
           (VInt 5)
           (quiet (λ _, Response (MessageChoice <$> [Some "a"; None])))
           [Some "a"; None] 0%nat Backoff.fibo_init).
  - apply (reach_init (quiet (λ _, Response [])) "gpt-4" demo_cfg).
    apply fresh_gpt4_constructed.
  - by_compute.
  - right. by eexists.
  - reflexivity.
Defined.

Section faults.

Lemma transient_retried s1 e :
  transient e → retried_result (conclude s1 (Fault e)).
Proof.
  unfold transient. rewrite !elem_of_cons, elem_of_nil.
  intros [->|[->|[->|[->|[]]]]]; by eexists.
Qed.

Lemma conclude_other s1 e :
  e ≠ BadRequestError → e ≠ JSONDecodeError → conclude s1 (Fault e) = Raise e.
Proof. intros H1 H2. by destruct e. Qed.

End faults.

(** X8: an exception of [create] that is neither one of the classes
    listed in the decorator nor the bad-request error nor a JSON decode
    error goes to the caller from the first attempt: one request, no
    wait, no second attempt. *)
Theorem X8_other_errors_propagate fuel wait self w p n s1 rq e :
  prepare w self p n = (s1, Send rq) →
  net w (length (sent w)) = Fault e →
  retried e = false → e ≠ BadRequestError → e ≠ JSONDecodeError →
  _call_model_from (S fuel) wait p n self w
  = Some (s1, record_request rq w, Raise e).
Proof.
  intros Hprep Hnet Hre H1 H2.
  rewrite call_from_unfold, (call_once_send p n self w s1 rq Hprep), Hnet.
  by rewrite conclude_other, Hre.
Qed.

Lemma X8_other_errors_propagate_witness :
  _call_model_from 1 Backoff.fibo_init (VStr "hi") (VInt 1) fresh_gpt4
    (quiet (λ _, Fault (OtherAPIError "AuthenticationError")))
  = Some (attached_gpt4,
          record_request (gpt4_request 1)
            (quiet (λ _, Fault (OtherAPIError "AuthenticationError"))),
          Raise (OtherAPIError "AuthenticationError")).
Proof.
  apply (X8_other_errors_propagate 0 Backoff.fibo_init fresh_gpt4
           (quiet (λ _, Fault (OtherAPIError "AuthenticationError")))
           (VStr "hi") (VInt 1) attached_gpt4 (gpt4_request 1)
           (OtherAPIError "AuthenticationError")).
  - apply prepare_fresh_gpt4.
  - reflexivity.
  - reflexivity.
  - discriminate.
  - discriminate.
Defined.

(** X9: each of the four provider errors of the decorator
    ([RateLimitError], [InternalServerError], [APITimeoutError],
    [APIConnectionError]) is retried, in any mixture: after [k] such
    errors and then any result that is not retried, the call has made
    [k + 1] attempts with the same request and [k] waits and ends with
    that result. *)
Theorem X9_transient_faults_retried k extra wait self w p n s1 rq r :
  prepare w self p n = (s1, Send rq) →
  (∀ i, (i < k)%nat →
        ∃ e, net w (length (sent w) + i) = Fault e ∧ transient e) →
  conclude s1 (net w (length (sent w) + k)) = r →
  final_result r →
  _call_model_from (S (k + extra)) wait p n self w
  = Some (s1, after_attempts (S k) wait rq w, r).
Proof.
  intros Hprep Hfaults Hlast Hfinal.
  apply (retry_then p n k extra wait self w s1 rq r Hprep); [|done..].
  intros i Hi. destruct (Hfaults i Hi) as (e & -> & He).
  by apply transient_retried.
Qed.

Lemma X9_transient_faults_retried_witness :
  _call_model_from 4 Backoff.fibo_init (VStr "hi") (VInt 1) fresh_gpt4
    (quiet flaky)
  = Some (attached_gpt4,
          after_attempts 4 Backoff.fibo_init (gpt4_request 1) (quiet flaky),
          Return (VList [VStr "ok"])).
Proof.
  apply (X9_transient_faults_retried 3 0 Backoff.fibo_init fresh_gpt4
           (quiet flaky) (VStr "hi") (VInt 1) attached_gpt4 (gpt4_request 1)
           (Return (VList [VStr "ok"]))).
  - apply prepare_fresh_gpt4.
  - intros [|[|[|i]]] Hi; [eexists; split; [reflexivity|unfold transient; in_list]..|lia].
  - reflexivity.
  - exact I.
Defined.

(** X10: whatever the instance and the provider, an exception that the
    decorated [_call_model] lets out is never of a class listed in the
    decorator: not one of the four provider errors and not
    [GarakBackoffTrigger]. *)
Theorem X10_listed_classes_never_surface fuel wait p n self w s1 w1 e :
  _call_model_from fuel wait p n self w = Some (s1, w1, Raise e) →
  retried e = false ∧ ¬ transient e ∧ ∀ cause, e ≠ GarakBackoffTrigger cause.
Proof.
  intros Hrun.
  assert (retried e = false) as Hre.
  { revert wait self w Hrun.
    induction fuel as [|fuel IH]; intros wait self w; [done|].
    rewrite call_from_unfold.
    destruct (_call_model_once p n self w) as [[s' w'] [a|e']]; [done|].
    destruct (retried e') eqn:E.
    - apply IH.
    - by intros [= _ _ <-]. }
  split; [done|]. split.
  - unfold transient. rewrite !elem_of_cons, elem_of_nil.
    intros [->|[->|[->|[->|[]]]]]; discriminate Hre.
  - intros cause ->. discriminate Hre.
Qed.

Lemma X10_listed_classes_never_surface_witness :
  retried (OtherAPIError "AuthenticationError") = false ∧
  ¬ transient (OtherAPIError "AuthenticationError") ∧
  ∀ cause, OtherAPIError "AuthenticationError" ≠ GarakBackoffTrigger cause.
Proof.
  apply (X10_listed_classes_never_surface 1 Backoff.fibo_init
           (VStr "hi") (VInt 1) fresh_gpt4
           (quiet (λ _, Fault (OtherAPIError "AuthenticationError")))
           attached_gpt4
           (record_request (gpt4_request 1)
              (quiet (λ _, Fault (OtherAPIError "AuthenticationError"))))).
  rewrite call_from_unfold.
  by rewrite (call_once_send _ _ _ _ _ _ (prepare_fresh_gpt4 _ 1)).
Defined.

(** X11: the decorator sets no bound on the attempts: when every
    answer of the provider is one that is retried, the call is still
    retrying after any number of attempts. *)
Theorem X11_retries_without_bound fuel wait self w p n s1 rq :
  prepare w self p n = (s1, Send rq) →
  (∀ i, retried_result (conclude s1 (net w (length (sent w) + i)))) →
  _call_model_from fuel wait p n self w = None.
Proof.
  revert wait self w.
  induction fuel as [|fuel IH]; intros wait self w Hprep Hall; [done|].
  rewrite call_from_unfold, (call_once_send p n self w s1 rq Hprep).
  destruct (Hall 0%nat) as (e & He & Hre).
  rewrite Nat.add_0_r in He. rewrite He, Hre.
  apply IH; [by eapply prepare_again|].
  intros i. simpl. rewrite length_app. simpl.
  replace (length (sent w) + 1 + i)%nat with (length (sent w) + S i)%nat by lia.
  apply Hall.
Qed.

Lemma X11_retries_without_bound_witness :
  _call_model_from 1000 Backoff.fibo_init (VStr "hi") (VInt 1) fresh_gpt4
    (quiet (λ _, Fault RateLimitError)) = None.
Proof.
  apply (X11_retries_without_bound 1000 Backoff.fibo_init fresh_gpt4
           (quiet (λ _, Fault RateLimitError)) (VStr "hi") (VInt 1)
           attached_gpt4 (gpt4_request 1)).
  - apply prepare_fresh_gpt4.
  - intros i. by exists RateLimitError.
Defined.

(** X12: a call of [_call_model], however many attempts it takes and
    however it ends, changes no attribute of the instance but [client] and
    [generator]: the name, the sampling parameters, [suppressed_params] and
    [retry_json] are as before. *)
Theorem X12_call_keeps_configuration fuel wait p n self w s1 w1 r :
  _call_model_from fuel wait p n self w = Some (s1, w1, r) →
  _clear_client s1 = _clear_client self ∧
  name s1 = name self ∧
  suppressed_params s1 = suppressed_params self ∧
  retry_json s1 = retry_json self ∧
  ∀ k, create_args s1 k = create_args self k.
Proof.
  intros Hrun.
  pose proof (clear_call_from p n fuel wait self w s1 w1 r Hrun) as Hcl.
  split; [done|].
  split; [exact (f_equal name Hcl)|].
  split; [exact (f_equal suppressed_params Hcl)|].
  split; [exact (f_equal retry_json Hcl)|].
  intros k. by rewrite <- (create_args_clear s1), Hcl.
Qed.

Lemma X12_call_keeps_configuration_witness :
  _clear_client attached_gpt4 = _clear_client fresh_gpt4 ∧
  name attached_gpt4 = name fresh_gpt4 ∧
  suppressed_params attached_gpt4 = suppressed_params fresh_gpt4 ∧
  retry_json attached_gpt4 = retry_json fresh_gpt4 ∧
  ∀ k, create_args attached_gpt4 k = create_args fresh_gpt4 k.
Proof.
  apply (X12_call_keeps_configuration 1 Backoff.fibo_init (VStr "hi") (VInt 1)
           fresh_gpt4 (quiet (λ _, Fault BadRequestError)) attached_gpt4
           (record_request (gpt4_request 1) (quiet (λ _, Fault BadRequestError)))
           (Return (VList [VNone]))).
  rewrite call_from_unfold.
  by rewrite (call_once_send _ _ _ _ _ _ (prepare_fresh_gpt4 _ 1)).
Defined.

(** X13: on an instance a program can hold, the body of [_call_model]
    raises nothing of its own before it calls the provider: it sends a
    request or returns the empty list, so an exception of one run of the
    body always comes after that run's request. *)
Theorem X13_no_exception_before_request self w p n :
  reachable self →
  ((∃ rq, (prepare w self p n).2 = Send rq)
   ∨ (prepare w self p n).2 = Early (Return (VList []))) ∧
  ∀ e, (_call_model_once p n self w).2 = Raise e →
       ∃ rq, sent (_call_model_once p n self w).1.2 = sent w ++ [rq].
Proof.
  intros Hreach.
  destruct (reachable_consistent self Hreach) as [Hr Hst].
  apply routable_route in Hr as [v Hv].
  pose proof (prepare_routed w self v p n Hv Hst) as Hprep.
  assert ((∃ rq, shaped v (its_client self) (create_args self n) p = Send rq)
          ∨ shaped v (its_client self) (create_args self n) p
            = Early (Return (VList []))) as Hshape.
  { unfold shaped. destruct v, p; eauto. }
  split; [by rewrite Hprep|].
  intros e. unfold _call_model_once. rewrite Hprep.
  destruct Hshape as [[rq ->]| ->]; [|done].
  intros _. by exists rq.
Qed.

Lemma X13_no_exception_before_request_witness :
  ∃ rq, sent (_call_model_once (VStr "hi") (VInt 1) fresh_gpt4
                (quiet (λ _, Fault APITimeoutError))).1.2
        = sent (quiet (λ _, Fault APITimeoutError)) ++ [rq].
Proof.
  refine (proj2 (X13_no_exception_before_request fresh_gpt4
                   (quiet (λ _, Fault APITimeoutError)) (VStr "hi") (VInt 1) _)
            APITimeoutError _).
  - apply (reach_init (quiet (λ _, Response [])) "gpt-4" demo_cfg).
    apply fresh_gpt4_constructed.
  - by rewrite (call_once_send _ _ _ _ _ _ (prepare_fresh_gpt4 _ 1)).
Defined.

(** X14: pickling round trip.  For an instance a program can hold,
    [__setstate__] on the copy that [__getstate__] returns raises nothing,
    gives back the same configuration, and the restored instance prepares
    for every prompt and count what the original prepares. *)
Theorem X14_pickle_round_trip self w :
  reachable self →
  let restored := (__setstate__ w (__getstate__ self).2).1 in
  (__setstate__ w (__getstate__ self).2).2 = Return () ∧
  _clear_client restored = _clear_client self ∧
  ∀ w1 w2 p n, (prepare w1 restored p n).2 = (prepare w2 self p n).2.
Proof.
  intros Hreach restored. subst restored.
  destruct (reachable_consistent self Hreach) as [Hr Hst].
  apply routable_route in Hr as [v Hv].
  unfold __setstate__, __getstate__. cbn [fst snd].
  rewrite load_client_route.
  change (name (_clear_client self)) with (name self). rewrite Hv.
  cbn [fst snd]. split; [done|]. split; [done|].
  intros w1 w2 p n.
  rewrite (prepare_routed w2 self v p n Hv Hst).
  rewrite (prepare_routed w1 (loaded_as v (_clear_client self)) v p n);
    [done|done|]. right. by apply loaded_attached.
Qed.

Lemma X14_pickle_round_trip_witness :
  (__setstate__ (quiet (λ _, Response []))
     (__getstate__ attached_gpt4).2).2 = Return ().
Proof.
  refine (proj1 (X14_pickle_round_trip attached_gpt4
                   (quiet (λ _, Response [])) _)).
  apply (reach_load (quiet (λ _, Response [])) fresh_gpt4).
  apply (reach_init (quiet (λ _, Response [])) "gpt-4" demo_cfg).
  apply fresh_gpt4_constructed.
Defined.

Section constructing.

Lemma route_of_Some nm :
  is_Some (route_of nm)
  ↔ nm ∈ completion_models ∨ nm ∈ chat_models ∨ ModelRouter.dated nm.
Proof.
  unfold route_of, PyStr.in_tuple. split.
  - case_decide as Hnm; [by intros [? [=]]|].
    destruct (bool_decide_reflect (nm ∈ completion_models)); [by left|].
    destruct (bool_decide_reflect (nm ∈ chat_models)); [by right; left|].
    destruct (dated_suffix nm) eqn:E; [|by intros [? [=]]].
    intros _. right; right. by apply dated_suffix_spec.
  - intros H. case_decide as Hnm.
    { subst nm. destruct H as [H|[H|H]].
      - by destruct (completion_models_named H).
      - by destruct (chat_models_named H).
      - by destruct (not_dated_empty H). }
    destruct (bool_decide_reflect (nm ∈ completion_models)); [by eexists|].
    destruct (bool_decide_reflect (nm ∈ chat_models)); [by eexists|].
    destruct H as [H|[H|H]]; [done|done|].
    apply dated_suffix_spec in H. rewrite H. by eexists.
Qed.

Lemma init_route w nm cfg :
  __init__ w nm cfg =
  match route_of nm with
  | Some _ => Return (unloaded nm cfg)
  | None => Raise (load_error w (unloaded nm cfg))
  end.
Proof.
  rewrite init_unfold, load_client_route.
  change (name (unloaded nm cfg)) with nm.
  by destruct (route_of nm).
Qed.

End constructing.

(** X15: construction succeeds exactly for the names of
    [completion_models], the names of [chat_models] and the chat-model
    names with a dated suffix; the instance it returns has no client and no
    generator bound and holds the configured attributes, the same whatever
    the provider is. *)
Theorem X15_construction_succeeds_iff w nm cfg :
  ((∃ self, __init__ w nm cfg = Return self)
   ↔ nm ∈ completion_models ∨ nm ∈ chat_models ∨ ModelRouter.dated nm) ∧
  ∀ self, __init__ w nm cfg = Return self →
          self = unloaded nm cfg ∧ client self = None ∧ generator self = None.
Proof.
  rewrite init_route. split.
  - rewrite <- route_of_Some. destruct (route_of nm) as [v|].
    + split; [by eexists|]. intros _. by eexists.
    + split; [by intros [? [=]]|]. by intros [? [=]].
  - destruct (route_of nm); [|done]. by intros self [= <-].
Qed.

Lemma X15_construction_succeeds_iff_witness :
  fresh_0314 = unloaded "gpt-4-0314" demo_cfg ∧
  client fresh_0314 = None ∧ generator fresh_0314 = None.
Proof.
  refine (proj2 (X15_construction_succeeds_iff (quiet (λ _, Response []))
                   "gpt-4-0314" demo_cfg) fresh_0314 _).
  apply fresh_0314_constructed.
Defined.

(** X16: an exception of construction is always the one that
    [_load_client] raised: for a name that is not empty the [ValueError]
    that names the model; for the empty name the exception of
    [client.models.list()] when that call fails, and otherwise the
    [ValueError] that asks for a model name and lists the provider's
    models sorted.  The check after [_load_client] in
    [OpenAICompatible.__init__] never fires. *)
Theorem X16_construction_errors w nm cfg e :
  __init__ w nm cfg = Raise e →
  (_load_client w (unloaded nm cfg)).2 = Raise e ∧
  ((nm = "" ∧ models_list w = Raise e)
   ∨ (nm = "" ∧ ∃ data,
        models_list w = Return data ∧
        e = ValueError (model_name_required "OpenAI"
                          (merge_sort (≤)%string data)))
   ∨ (nm ≠ "" ∧ e = ValueError (no_api_defined "OpenAI" nm))).
Proof.
  rewrite init_route, load_client_route.
  change (name (unloaded nm cfg)) with nm.
  destruct (route_of nm); [done|].
  intros [= <-]. split; [done|].
  unfold load_error. simpl. case_decide as Hnm.
  - destruct (models_list w) as [data|e']; [|by left].
    right; left. split; [done|]. by exists data.
  - right; right. done.
Qed.

Lemma X16_construction_errors_witness :
  (_load_client unlisted (unloaded "" demo_cfg)).2
  = Raise (OtherAPIError "AuthenticationError").
Proof.
  refine (proj1 (X16_construction_errors unlisted "" demo_cfg
                   (OtherAPIError "AuthenticationError") _)).
  vm_compute. reflexivity.
Defined.

(** X17: for the empty name [_load_client] never succeeds.  It binds the
    client and leaves the generator as it was; when
    [client.models.list()] raises, that exception goes to the caller; when
    it answers, a [ValueError] is raised whose message does not depend on
    the order in which the provider lists its models, since the listing
    is sorted before it is put into the message. *)
Theorem X17_empty_name_listing_sorted w self :
  name self = "" →
  client (_load_client w self).1 = Some (its_client self) ∧
  generator (_load_client w self).1 = generator self ∧
  (∀ u, (_load_client w self).2 ≠ Return u) ∧
  (∀ e, models_list w = Raise e → (_load_client w self).2 = Raise e) ∧
  (∀ data, models_list w = Return data →
     (∃ msg, (_load_client w self).2 = Raise (ValueError msg)) ∧
     ∀ w' data', models_list w' = Return data' → data ≡ₚ data' →
                 _load_client w' self = _load_client w self).
Proof.
  intros Hnm. unfold _load_client. simpl. rewrite !decide_True by done.
  split; [by destruct (models_list w)|].
  split; [by destruct (models_list w)|].
  split; [by destruct (models_list w)|].
  split; [by intros e ->|].
  intros data ->. split; [by eexists|].
  intros w' data' Hw' Hperm. unfold _load_client. simpl.
  rewrite decide_True by done. rewrite Hw'.
  assert (merge_sort (≤)%string data' = merge_sort (≤)%string data) as ->;
    [|done].
  apply (Sorted_unique (≤)%string).
  - apply (Sorted_merge_sort _).
  - apply (Sorted_merge_sort _).
  - by rewrite !merge_sort_Permutation.
Qed.

Lemma X17_empty_name_listing_sorted_witness :
  (_load_client unlisted (unloaded "" demo_cfg)).2
  = Raise (OtherAPIError "AuthenticationError").
Proof.
  destruct (X17_empty_name_listing_sorted unlisted (unloaded "" demo_cfg))
    as (_ & _ & _ & H & _).
  - reflexivity.
  - apply H. reflexivity.
Defined.

Example empty_name_listed :
  __init__ (quiet (λ _, Response [])) "" demo_cfg
  = Raise (ValueError
             (model_name_required "OpenAI" ["babbage-002"; "gpt-4"])).
Proof. vm_compute. reflexivity. Qed.

Example empty_name_unlisted :
  __init__ unlisted "" demo_cfg = Raise (OtherAPIError "AuthenticationError").
Proof. vm_compute. reflexivity. Qed.

(** * The prompt reader *)

Example probe_good_combined :
  Probe.read_sci_safe_eval id Probe.toy_loads Probe.toy_open "good.jsonl" true
  = Probe.Data
      [ {| Probe.entry_id := VInt 1;
           Probe.entry_prompt := VStr "Explain benzene briefly" |};
        {| Probe.entry_id := VInt 2; Probe.entry_prompt := VStr "Summarise" |} ].
Proof. vm_compute. reflexivity. Qed.

Example probe_good_content :
  Probe.read_sci_safe_eval id Probe.toy_loads Probe.toy_open "good.jsonl" false
  = Probe.Data
      [ {| Probe.entry_id := VInt 1; Probe.entry_prompt := VStr "benzene" |};
        {| Probe.entry_id := VInt 2; Probe.entry_prompt := VStr "<content>" |} ].
Proof. vm_compute. reflexivity. Qed.

Example probe_blank_line :
  Probe.read_sci_safe_eval id Probe.toy_loads Probe.toy_open "blank.jsonl" true
  = Probe.NoData "Error decoding JSON in file: blank.jsonl".
Proof. vm_compute. reflexivity. Qed.

Example probe_missing :
  Probe.read_sci_safe_eval id Probe.toy_loads Probe.toy_open "none.jsonl" true
  = Probe.NoData "File not found: none.jsonl".
Proof. vm_compute. reflexivity. Qed.

Example replace_twice :
  Probe.replace "<content>" "X" "a<content>b<content>" = "aXbX".
Proof. vm_compute. reflexivity. Qed.

Example replace_no_overlap : Probe.replace "aa" "b" "aaa" = "ba".
Proof. vm_compute. reflexivity. Qed.

Section replacing.

Lemma starts_with_app old s : Probe.starts_with old (old +:+ s) = true.
Proof.
  induction old as [|a old IH]; [by destruct s|].
  rewrite app_cons. simpl. by rewrite bool_decide_eq_true_2, IH.
Qed.

Lemma starts_with_split old s :
  Probe.starts_with old s = true → ∃ r, s = old +:+ r.
Proof.
  revert s. induction old as [|a old IH]; intros s; [by exists s|].
  destruct s as [|b s]; [done|]. simpl.
  intros [Hab Hs]%andb_true_iff. apply bool_decide_eq_true in Hab as ->.
  destruct (IH s Hs) as [r ->]. by exists r.
Qed.

Lemma replace_go_skip old new t u :
  Probe.replace_go old new (String.length t) (t +:+ u)
  = Probe.replace_go old new 0 u.
Proof. induction t as [|c t IH]; [by destruct u|]. rewrite app_cons. exact IH. Qed.

(** A text without the pattern comes back as it is. *)
Lemma replace_absent old new s :
  (∀ a b, s ≠ a +:+ old +:+ b) → Probe.replace old new s = s.
Proof.
  unfold Probe.replace. induction s as [|c s IH]; intros Habs; [done|].
  cbn [Probe.replace_go].
  destruct (Probe.starts_with old (String c s)) eqn:E.
  - apply starts_with_split in E as [r Hr].
    by destruct (Habs "" r).
  - f_equal. apply IH. intros a b ->. by destruct (Habs (String c a) b).
Qed.

Lemma no_angle_absent s a b :
  PyStr.free_of "<" s → s ≠ a +:+ Probe.placeholder +:+ b.
Proof.
  revert a. induction s as [|c s IH]; intros a Hfree.
  - by destruct a.
  - destruct Hfree as [Hc Hs]. destruct a as [|d a].
    + rewrite app_empty_l. unfold Probe.placeholder. rewrite app_cons.
      by intros [= -> _].
    + rewrite app_cons. intros [= _ H]. by apply (IH a).
Qed.

Lemma replace_placeholder pre post new :
  PyStr.free_of "<" pre → PyStr.free_of "<" post →
  Probe.replace Probe.placeholder new (pre +:+ Probe.placeholder +:+ post)
  = pre +:+ new +:+ post.
Proof.
  intros Hpre Hpost. unfold Probe.replace.
  induction pre as [|c pre IH].
  - rewrite !app_empty_l.
    change (Probe.placeholder +:+ post)
      with (String "<" ("content>" +:+ post)).
    cbn [Probe.replace_go].
    change (String "<" ("content>" +:+ post))
      with (Probe.placeholder +:+ post).
    rewrite starts_with_app. f_equal.
    change (Init.Nat.pred (String.length Probe.placeholder))
      with (String.length "content>").
    rewrite replace_go_skip.
    apply (replace_absent Probe.placeholder new post).
    intros a b. by apply no_angle_absent.
  - destruct Hpre as [Hc Hpre]. rewrite !app_cons.
    cbn [Probe.replace_go].
    assert (Probe.starts_with Probe.placeholder
              (String c (pre +:+ Probe.placeholder +:+ post)) = false) as ->.
    { simpl. rewrite bool_decide_eq_false_2; [done|]. by intros <-. }
    f_equal. by apply IH.
Qed.

End replacing.

Section reading.
Variable strip : string → string.
Variable loads : string → option value.
Variable open_ : string → Probe.file.

Lemma read_lines_Done combine lines data es :
  Probe.read_lines strip loads combine lines data = Probe.Done es ↔
  ∃ new, es = data ++ new ∧
         Forall2 (λ line e, Probe.read_line strip loads combine line = Probe.Done e)
                 lines new.
Proof.
  revert data. induction lines as [|line lines IH]; intros data; simpl.
  - split.
    + intros [= <-]. exists []. by rewrite app_nil_r.
    + intros (new & -> & Hnew). apply Forall2_nil_inv_l in Hnew as ->.
      by rewrite app_nil_r.
  - destruct (Probe.read_line strip loads combine line) as [e| |] eqn:E.
    + rewrite IH. split.
      * intros (new & -> & Hnew). exists (e :: new).
        rewrite <- app_assoc. split; [done|]. by constructor.
      * intros (new & -> & Hnew).
        apply Forall2_cons_inv_l in Hnew as (e' & new' & He & Hnew' & ->).
        assert (e' = e) as -> by congruence.
        exists new'. by rewrite <- app_assoc.
    + split; [done|]. intros (new & _ & Hnew).
      apply Forall2_cons_inv_l in Hnew as (e' & new' & He & _). congruence.
    + split; [done|]. intros (new & _ & Hnew).
      apply Forall2_cons_inv_l in Hnew as (e' & new' & He & _). congruence.
Qed.

Lemma read_lines_app combine good more data new :
  Forall2 (λ line e, Probe.read_line strip loads combine line = Probe.Done e)
          good new →
  Probe.read_lines strip loads combine (good ++ more) data
  = Probe.read_lines strip loads combine more (data ++ new).
Proof.
  intros H. revert data.
  induction H as [|line e good new He _ IH]; intros data; simpl.
  - by rewrite app_nil_r.
  - rewrite He, IH. by rewrite <- app_assoc.
Qed.

Lemma read_line_entries combine lines es es' :
  Forall2 (λ line e, Probe.read_line strip loads combine line = Probe.Done e)
          lines es →
  Forall2 (λ line e, Probe.read_line strip loads combine line = Probe.Done e)
          lines es' →
  es = es'.
Proof.
  intros H. revert es'.
  induction H as [|line e lines es He _ IH]; intros es' H'.
  - by apply Forall2_nil_inv_l in H'.
  - apply Forall2_cons_inv_l in H' as (e' & es'' & He' & H' & ->).
    f_equal; [congruence|by apply IH].
Qed.

End reading.

(** X18: the reader returns a list exactly when every line of the file
    gives an entry, and then the list has the entries of the lines, one
    per line and in the order of the file. *)
Theorem X18_reader_entry_per_line strip loads open_ path combine lines es :
  open_ path = Probe.Opened lines →
  Probe.read_sci_safe_eval strip loads open_ path combine = Probe.Data es
  ↔ Forall2 (λ line e, Probe.read_line strip loads combine line = Probe.Done e)
            lines es.
Proof.
  intros Hopen. unfold Probe.read_sci_safe_eval. rewrite Hopen.
  destruct (Probe.read_lines strip loads combine lines []) as [data| |] eqn:E.
  - apply read_lines_Done in E as (new & -> & Hnew). simpl. split.
    + by intros [= <-].
    + intros H. f_equal. by eapply read_line_entries.
  - split; [done|]. intros H.
    assert (Probe.read_lines strip loads combine lines [] = Probe.Done es) as E'
      by (apply read_lines_Done; by exists es).
    congruence.
  - split; [done|]. intros H.
    assert (Probe.read_lines strip loads combine lines [] = Probe.Done es) as E'
      by (apply read_lines_Done; by exists es).
    congruence.
Qed.

Lemma X18_reader_entry_per_line_witness :
  Forall2 (λ line e, Probe.read_line id Probe.toy_loads true line = Probe.Done e)
    ["r1"; "r2"]
    [ {| Probe.entry_id := VInt 1;
         Probe.entry_prompt := VStr "Explain benzene briefly" |};
      {| Probe.entry_id := VInt 2; Probe.entry_prompt := VStr "Summarise" |} ].
Proof.
  apply (X18_reader_entry_per_line id Probe.toy_loads Probe.toy_open
           "good.jsonl" true).
  - reflexivity.
  - vm_compute. reflexivity.
Defined.

(** X19: one line that is not JSON makes the reader print the decoding
    message and return [None], wherever the line stands: the entries of
    the lines before it are dropped and the lines after it are not read.
    A blank line is such a line when [json.loads] rejects the empty
    string. *)
Theorem X19_undecodable_line_discards_all strip loads open_ path combine
    good bad rest es :
  open_ path = Probe.Opened (good ++ bad :: rest) →
  Forall2 (λ line e, Probe.read_line strip loads combine line = Probe.Done e)
          good es →
  loads (strip bad) = None →
  Probe.read_sci_safe_eval strip loads open_ path combine
  = Probe.NoData ("Error decoding JSON in file: " +:+ path).
Proof.
  intros Hopen Hgood Hbad. unfold Probe.read_sci_safe_eval. rewrite Hopen.
  rewrite (read_lines_app strip loads combine good (bad :: rest) [] es Hgood).
  simpl. unfold Probe.read_line. by rewrite Hbad.
Qed.

Lemma X19_undecodable_line_discards_all_witness :
  Probe.read_sci_safe_eval id Probe.toy_loads Probe.toy_open "blank.jsonl" true
  = Probe.NoData ("Error decoding JSON in file: " +:+ "blank.jsonl").
Proof.
  apply (X19_undecodable_line_discards_all id Probe.toy_loads Probe.toy_open
           "blank.jsonl" true ["r1"] "" ["r2"]
           [ {| Probe.entry_id := VInt 1;
                Probe.entry_prompt := VStr "Explain benzene briefly" |} ]).
  - reflexivity.
  - constructor; [vm_compute; reflexivity|constructor].
  - reflexivity.
Defined.

(** X20: with [combine], an instruction that has the placeholder once,
    between texts without "<", becomes the instruction with the content
    in the place of the placeholder; the content goes in as it is, also
    when it has the placeholder in it. *)
Theorem X20_placeholder_filled d pre post content :
  Probe.item "instruction" d
  = Some (VStr (pre +:+ Probe.placeholder +:+ post)) →
  Probe.item "content" d = Some (VStr content) →
  PyStr.free_of "<" pre → PyStr.free_of "<" post →
  Probe.combined (VDict d) = Probe.Done (VStr (pre +:+ content +:+ post)).
Proof.
  intros Hi Hc Hpre Hpost. unfold Probe.combined, Probe.getitem.
  rewrite Hi, Hc. by rewrite replace_placeholder.
Qed.

Lemma X20_placeholder_filled_witness :
  Probe.combined (Probe.record_of 1 "Explain <content> briefly" "a <content> b")
  = Probe.Done (VStr ("Explain " +:+ "a <content> b" +:+ " briefly")).
Proof.
  apply (X20_placeholder_filled _ "Explain " " briefly" "a <content> b").
  - reflexivity.
  - reflexivity.
  - simpl. repeat split; discriminate.
  - simpl. repeat split; discriminate.
Defined.

(** X21: with [combine], an instruction in which the placeholder does
    not occur is returned as the prompt unchanged: the content is left
    out without any notice. *)
Theorem X21_no_placeholder_drops_content d instruction content :
  Probe.item "instruction" d = Some (VStr instruction) →
  Probe.item "content" d = Some (VStr content) →
  (∀ a b, instruction ≠ a +:+ Probe.placeholder +:+ b) →
  Probe.combined (VDict d) = Probe.Done (VStr instruction).
Proof.
  intros Hi Hc Habs. unfold Probe.combined, Probe.getitem.
  rewrite Hi, Hc. by rewrite replace_absent.
Qed.

Lemma X21_no_placeholder_drops_content_witness :
  Probe.combined (Probe.record_of 2 "Summarise" "benzene")
  = Probe.Done (VStr "Summarise").
Proof.
  apply (X21_no_placeholder_drops_content _ "Summarise" "benzene").
  - reflexivity.
  - reflexivity.
  - intros a b. apply no_angle_absent. simpl. repeat split; discriminate.
Defined.
